(** * The API Gateway / Lambda / DynamoDB stack as a resource graph

    Shallow embedding of
    [stacks/apigw_http_api_lambda_dynamodb_python_cdk_stack.py].

    The Python file is one constructor, [__init__], that instantiates
    constructs inside the stack ([self]) and calls a few mutating methods
    on them.  Here the stack under construction is an explicit state: an
    ordered store from construct paths to the properties each construct
    was declared with, plus the list of grants.  A Python variable bound
    to a construct is the path of that construct in the store, so a
    method called on the variable updates the one shared entry.

    The store lists the constructs that the statements of the body
    declare; constructs that the library creates inside them are not
    listed.  A call that raises stops the body, and what was declared
    before it stays declared: an outcome carries the error together with
    the state reached.

    Keyword arguments that a call leaves out are [None] in the record of
    the construct; nothing is filled in for them. *)

From Stdlib Require Import String Ascii List ZArith Bool Lia.
Import ListNotations.
Local Open Scope string_scope.
Local Open Scope list_scope.

(** ** Paths, tokens and strings that carry tokens *)

(** A construct is addressed by the list of ids from the root. *)
Definition path := list string.

Fixpoint path_eqb (p q : path) : bool :=
  match p, q with
  | [], [] => true
  | a :: p', b :: q' => String.eqb a b && path_eqb p' q'
  | _, _ => false
  end.

(** A handle is a path relative to the stack being built. *)
Definition handle := path.

(** [self]: the stack itself. *)
Definition self : handle := [].

(** A string whose value is only known at deployment is made of
    literal text, tokens naming a construct and one of its attributes,
    and pseudo parameters of the deployment (region, URL suffix). *)
Inductive fragment : Type :=
| Lit (s : string)
| Tok (target : handle) (attr : string)
| Pseudo (name : string).

Definition tstring := list fragment.

(** One piece of a Python f-string: literal text or an interpolated
    expression. *)
Inductive fpart : Type :=
| FText (s : string)
| FExpr (v : tstring).

Fixpoint fstring (parts : list fpart) : tstring :=
  match parts with
  | [] => []
  | FText s :: rest => Lit s :: fstring rest
  | FExpr v :: rest => v ++ fstring rest
  end.

Definition nl : string := String (ascii_of_nat 10) EmptyString.
Definition dq : string := String (ascii_of_nat 34) EmptyString.

Fixpoint lines (ls : list string) : string :=
  match ls with
  | [] => EmptyString
  | l :: rest => l ++ nl ++ lines rest
  end.

(** ** Values of the provisioning library used by the stack *)

Module Duration.
Record t : Type := { to_seconds : Z }.
Definition minutes (n : Z) : t := {| to_seconds := 60 * n |}.
End Duration.

Module RemovalPolicy.
Inductive t : Type := DESTROY | RETAIN | SNAPSHOT.
End RemovalPolicy.

Module iam.

Inductive Principal : Type :=
| AnyPrincipal
| AccountPrincipal (account : string)
| ServicePrincipal (service : string).

Module Effect.
Inductive t : Type := ALLOW | DENY.
End Effect.

Module PolicyStatement.
Record t : Type := {
  effect : Effect.t;
  principals : list Principal;
  actions : list string;
  resources : list string
}.

Definition Effect_eqb (a b : Effect.t) : bool :=
  match a, b with
  | Effect.ALLOW, Effect.ALLOW => true
  | Effect.DENY, Effect.DENY => true
  | _, _ => false
  end.
End PolicyStatement.

Definition Principal_eqb (a b : Principal) : bool :=
  match a, b with
  | AnyPrincipal, AnyPrincipal => true
  | AccountPrincipal x, AccountPrincipal y => String.eqb x y
  | ServicePrincipal x, ServicePrincipal y => String.eqb x y
  | _, _ => false
  end.

Fixpoint list_eqb {A : Type} (eqb : A -> A -> bool) (l m : list A) : bool :=
  match l, m with
  | [], [] => true
  | a :: l', b :: m' => eqb a b && list_eqb eqb l' m'
  | _, _ => false
  end.

(** Two statements with the same effect, principals, actions and
    resources are the same statement. *)
Definition PolicyStatement_eqb (a b : PolicyStatement.t) : bool :=
  PolicyStatement.Effect_eqb (PolicyStatement.effect a)
                             (PolicyStatement.effect b)
  && list_eqb Principal_eqb (PolicyStatement.principals a)
                            (PolicyStatement.principals b)
  && list_eqb String.eqb (PolicyStatement.actions a)
                         (PolicyStatement.actions b)
  && list_eqb String.eqb (PolicyStatement.resources a)
                         (PolicyStatement.resources b).

(** [iam.PolicyStatement(principals=..., actions=..., resources=...)]:
    the call passes no [effect], which the library defaults to ALLOW. *)
Definition PolicyStatement (principals : list Principal)
  (actions resources : list string) : PolicyStatement.t :=
  {| PolicyStatement.effect := Effect.ALLOW;
     PolicyStatement.principals := principals;
     PolicyStatement.actions := actions;
     PolicyStatement.resources := resources |}.

End iam.

Module logs.

Module RetentionDays.
Inductive t : Type := ONE_DAY | ONE_WEEK | ONE_MONTH | ONE_YEAR | INFINITE.
End RetentionDays.

Module LogGroup.
Record t : Type := {
  retention : RetentionDays.t;
  removal_policy : RemovalPolicy.t
}.
End LogGroup.

End logs.

Module ec2.

Module SubnetType.
Inductive t : Type := PRIVATE_ISOLATED | PRIVATE_WITH_EGRESS | PUBLIC.

Definition eqb (a b : t) : bool :=
  match a, b with
  | PRIVATE_ISOLATED, PRIVATE_ISOLATED => true
  | PRIVATE_WITH_EGRESS, PRIVATE_WITH_EGRESS => true
  | PUBLIC, PUBLIC => true
  | _, _ => false
  end.

End SubnetType.

Module SubnetConfiguration.
Record t : Type := {
  name : string;
  subnet_type : SubnetType.t;
  cidr_mask : Z
}.
End SubnetConfiguration.

Module SubnetSelection.
Record t : Type := { subnet_type : option SubnetType.t }.
End SubnetSelection.

Module Vpc.
Record t : Type := {
  cidr : string;
  subnet_configuration : list SubnetConfiguration.t
}.
End Vpc.

Module FlowLogTrafficType.
Inductive t : Type := ACCEPT | ALL | REJECT.
End FlowLogTrafficType.

Module FlowLogDestination.
Inductive t : Type :=
| to_cloud_watch_logs (log_group : handle).
End FlowLogDestination.

Module FlowLog.
Record t : Type := {
  resource_vpc : handle;
  destination : FlowLogDestination.t;
  traffic_type : FlowLogTrafficType.t
}.
End FlowLog.

Module GatewayVpcEndpointAwsService.
Inductive t : Type := DYNAMODB | S3.
End GatewayVpcEndpointAwsService.

Module GatewayVpcEndpoint.
(** [policy] is not a keyword of the call: it is the endpoint's policy
    document, empty when the endpoint is created and extended by
    [add_to_policy]. *)
Record t : Type := {
  service : GatewayVpcEndpointAwsService.t;
  vpc : handle;
  policy : list iam.PolicyStatement.t
}.
End GatewayVpcEndpoint.

Module InterfaceVpcEndpointAwsService.
Inductive t : Type := XRAY | CLOUDWATCH_LOGS | SECRETS_MANAGER.
End InterfaceVpcEndpointAwsService.

Module InterfaceVpcEndpoint.
(** [policy]: as for the gateway endpoint, not a keyword of the call. *)
Record t : Type := {
  vpc : handle;
  service : InterfaceVpcEndpointAwsService.t;
  subnets : SubnetSelection.t;
  policy : list iam.PolicyStatement.t
}.
End InterfaceVpcEndpoint.

(** The subnet groups of a VPC that have the given type. *)
Definition subnets_of_type (v : Vpc.t) (ty : SubnetType.t)
  : list SubnetConfiguration.t :=
  filter (fun c => SubnetType.eqb (SubnetConfiguration.subnet_type c) ty)
         (Vpc.subnet_configuration v).

End ec2.

Module dynamodb_.

Module AttributeType.
Inductive t : Type := BINARY | NUMBER | STRING.
End AttributeType.

Module Attribute.
Record t : Type := {
  name : string;
  type : AttributeType.t
}.
End Attribute.

Module Table.
(** The call passes [partition_key] and [point_in_time_recovery] only;
    [sort_key] and [table_name] are keywords it leaves out. *)
Record t : Type := {
  partition_key : Attribute.t;
  sort_key : option Attribute.t;
  table_name : option string;
  point_in_time_recovery : bool
}.

(** The attributes the declaration constrains: the key schema. *)
Definition key_attributes (p : t) : list Attribute.t :=
  partition_key p ::
  match sort_key p with
  | Some a => [a]
  | None => []
  end.
End Table.

(** The ways a table hands out access to a grantee. *)
Module GrantKind.
Inductive t : Type :=
| read_data
| write_data
| read_write_data
| full_access
| stream_read.
End GrantKind.

Module Grant.
Record t : Type := {
  table : handle;
  kind : GrantKind.t;
  grantee : handle
}.
End Grant.

End dynamodb_.

Module lambda_.

Module Runtime.
Inductive t : Type := PYTHON_3_8 | PYTHON_3_9 | PYTHON_3_10.
End Runtime.

Module Code.
Inductive t : Type :=
| from_asset (asset_path : string)
| from_inline (source : string).
End Code.

Module Tracing.
Inductive t : Type := ACTIVE | PASS_THROUGH | DISABLED.
End Tracing.

Module Function.
(** [environment] is not a keyword of the call: it starts empty and is
    extended by [add_environment]. *)
Record t : Type := {
  function_name : option string;
  runtime : Runtime.t;
  code : Code.t;
  handler : string;
  vpc : handle;
  vpc_subnets : ec2.SubnetSelection.t;
  memory_size : Z;
  timeout : Duration.t;
  log_retention : logs.RetentionDays.t;
  tracing : Tracing.t;
  environment : list (string * tstring)
}.
End Function.

End lambda_.

Module apigw_.

Module LogGroupLogDestination.
Record t : Type := { log_group : handle }.
End LogGroupLogDestination.

Module AccessLogFormat.
(** The value built by [json_with_standard_fields]: one flag per
    standard field of the access log. *)
Record t : Type := json_with_standard_fields {
  caller : bool;
  http_method : bool;
  ip : bool;
  protocol : bool;
  request_time : bool;
  resource_path : bool;
  response_length : bool;
  status : bool;
  user : bool
}.

(** The standard fields, and whether a format includes one. *)
Inductive field : Type :=
| Caller | HttpMethod | Ip | Protocol | RequestTime
| ResourcePath | ResponseLength | Status | User.

Definition includes (f : t) (x : field) : bool :=
  match x with
  | Caller => caller f
  | HttpMethod => http_method f
  | Ip => ip f
  | Protocol => protocol f
  | RequestTime => request_time f
  | ResourcePath => resource_path f
  | ResponseLength => response_length f
  | Status => status f
  | User => user f
  end.
End AccessLogFormat.

Module StageOptions.
Record t : Type := {
  access_log_destination : LogGroupLogDestination.t;
  access_log_format : AccessLogFormat.t;
  tracing_enabled : bool
}.
End StageOptions.

Module LambdaRestApi.
Record t : Type := {
  handler : handle;
  deploy_options : StageOptions.t
}.
End LambdaRestApi.

End apigw_.

Module cloudwatch.

(** A metric is emitted by one construct, under a name. *)
Module Metric.
Record t : Type := {
  emitter : handle;
  metric_name : string
}.
End Metric.

Module Alarm.
Record t : Type := {
  metric : Metric.t;
  threshold : Z;
  evaluation_periods : Z;
  alarm_description : string
}.
End Alarm.

End cloudwatch.

Module s3.

Module BucketEncryption.
Inductive t : Type := UNENCRYPTED | S3_MANAGED | KMS_MANAGED | KMS.
End BucketEncryption.

Module BlockPublicAccess.
Inductive t : Type := BLOCK_ALL | BLOCK_ACLS.
End BlockPublicAccess.

Module Bucket.
Record t : Type := {
  encryption : BucketEncryption.t;
  block_public_access : BlockPublicAccess.t;
  removal_policy : RemovalPolicy.t;
  auto_delete_objects : bool
}.
End Bucket.

End s3.

Module synthetics.

Module Runtime.
Inductive t : Type :=
| SYNTHETICS_PYTHON_SELENIUM_3_0
| SYNTHETICS_NODEJS_PUPPETEER_6_2.
End Runtime.

Module Code.
Inductive t : Type :=
| from_inline (source : tstring)
| from_asset (asset_path : string).
End Code.

Module Test.
Record t : Type := custom {
  code : Code.t;
  handler : string
}.
End Test.

Module ArtifactsBucketLocation.
Record t : Type := { bucket : handle }.
End ArtifactsBucketLocation.

Module Schedule.
Inductive t : Type :=
| rate (interval : Duration.t)
| once.
End Schedule.

(** A value passed under a keyword of [synthetics.Canary(...)]. *)
Inductive arg : Type :=
| arg_runtime (r : Runtime.t)
| arg_test (t : Test.t)
| arg_location (l : ArtifactsBucketLocation.t)
| arg_schedule (s : Schedule.t)
| arg_bool (b : bool)
| arg_str (s : string).

Module Canary.
(** What a canary is declared with.  The class has no keyword
    [enable_auto_start]; whether the canary starts once created is its
    keyword [start_after_creation]. *)
Record t : Type := {
  runtime : Runtime.t;
  test : Test.t;
  artifacts_bucket_location : option ArtifactsBucketLocation.t;
  schedule : option Schedule.t;
  start_after_creation : option bool
}.

(** The keywords that [synthetics.Canary(scope, id, ...)] accepts, as
    the documentation of the library lists them. *)
Definition keywords : list string :=
  [ "active_tracing"; "artifacts_bucket_lifecycle_rules";
    "artifacts_bucket_location"; "artifact_s3_encryption_mode";
    "artifact_s3_kms_key"; "canary_name"; "cleanup";
    "environment_variables"; "failure_retention_period"; "memory";
    "provisioned_resource_cleanup"; "role"; "runtime"; "schedule";
    "security_groups"; "start_after_creation";
    "success_retention_period"; "test"; "timeout"; "time_to_live";
    "vpc"; "vpc_subnets" ].

Definition accepts (keyword : string) : bool :=
  existsb (String.eqb keyword) keywords.

(** The first keyword of a call that the class does not accept. *)
Fixpoint unexpected (given : list (string * arg)) : option string :=
  match given with
  | [] => None
  | (k, _) :: rest => if accepts k then unexpected rest else Some k
  end.

Fixpoint lookup (keyword : string) (given : list (string * arg))
  : option arg :=
  match given with
  | [] => None
  | (k, v) :: rest =>
      if String.eqb keyword k then Some v else lookup keyword rest
  end.

(** The record a call with accepted keywords describes; [None] when a
    required keyword is missing or a value has the wrong type. *)
Definition of_keywords (given : list (string * arg)) : option t :=
  match lookup "runtime" given, lookup "test" given with
  | Some (arg_runtime r), Some (arg_test te) =>
      match
        match lookup "artifacts_bucket_location" given with
        | None => Some None
        | Some (arg_location l) => Some (Some l)
        | Some _ => None
        end,
        match lookup "schedule" given with
        | None => Some None
        | Some (arg_schedule s) => Some (Some s)
        | Some _ => None
        end,
        match lookup "start_after_creation" given with
        | None => Some None
        | Some (arg_bool b) => Some (Some b)
        | Some _ => None
        end
      with
      | Some l, Some s, Some b =>
          Some {| runtime := r; test := te;
                  artifacts_bucket_location := l;
                  schedule := s;
                  start_after_creation := b |}
      | _, _, _ => None
      end
  | _, _ => None
  end.
End Canary.

(** The entry point of a canary's test has the form [file.function]:
    a dot with text on both sides. *)
Definition valid_handler (handler : string) : bool :=
  match String.index 0 "." handler with
  | Some i =>
      Nat.ltb 0 i && Nat.ltb (S i) (String.length handler)
  | None => false
  end.

End synthetics.

Module cloudtrail.

Module Trail.
Record t : Type := {
  bucket : handle;
  is_multi_region_trail : bool;
  include_global_service_events : bool
}.
End Trail.

End cloudtrail.

(** ** The stack under construction *)

(** What a construct of the stack was declared as. *)
Inductive Resource : Type :=
| ec2_Vpc (p : ec2.Vpc.t)
| ec2_FlowLog (p : ec2.FlowLog.t)
| ec2_GatewayVpcEndpoint (p : ec2.GatewayVpcEndpoint.t)
| ec2_InterfaceVpcEndpoint (p : ec2.InterfaceVpcEndpoint.t)
| logs_LogGroup (p : logs.LogGroup.t)
| dynamodb_Table (p : dynamodb_.Table.t)
| lambda_Function (p : lambda_.Function.t)
| apigw_LambdaRestApi (p : apigw_.LambdaRestApi.t)
| cloudwatch_Alarm (p : cloudwatch.Alarm.t)
| s3_Bucket (p : s3.Bucket.t)
| synthetics_Canary (p : synthetics.Canary.t)
| cloudtrail_Trail (p : cloudtrail.Trail.t).

(** The parent a stack is created in. *)
Record Construct : Type := { construct_path : path }.

(** The keyword arguments of the stack: names with their values as
    text.  Only the parent constructor looks at them. *)
Definition kwargs := list (string * string).

(** The stack being built: where it was created, the constructs the
    body has declared so far, in order, and the grants between them. *)
Record Stack : Type := {
  stack_scope : Construct;
  stack_id : string;
  nodes : list (handle * Resource);
  grants : list dynamodb_.Grant.t
}.

Fixpoint find_node (h : handle) (ns : list (handle * Resource))
  : option Resource :=
  match ns with
  | [] => None
  | (k, r) :: rest => if path_eqb h k then Some r else find_node h rest
  end.

Fixpoint set_node (h : handle) (r : Resource) (ns : list (handle * Resource))
  : list (handle * Resource) :=
  match ns with
  | [] => []
  | (k, r0) :: rest =>
      if path_eqb h k then (k, r) :: rest else (k, r0) :: set_node h r rest
  end.

(** The ambient state of the process: the environment, the working
    directory and what exists in the file system. *)
Module os.
Record t : Type := {
  environ : list (string * string);
  getcwd : string;
  path_exists : string -> bool
}.

(** A path as the file system sees it: a relative path is taken from
    the working directory. *)
Definition resolve (w : t) (p : string) : string :=
  if String.prefix "/" p then p else (getcwd w ++ "/" ++ p)%string.
End os.

(** ** Construction monad: ambient state, stack state, errors *)

Inductive Error : Type :=
| DuplicateId (p : handle)
| NoSuchConstruct (p : handle)
| AttributeError (p : handle) (attr : string)
| TypeError (callee : string) (unexpected_keyword : string)
| MissingArgument (callee : string)
| ValueError (message : string)
| AssetNotFound (file : string).

(** A computation returns a value or raises; either way it leaves the
    stack in the state it had reached. *)
Inductive Result (A : Type) : Type :=
| Ok (a : A) (st : Stack)
| Raise (e : Error) (st : Stack).

Arguments Ok {A} a st.
Arguments Raise {A} e st.

Definition M (A : Type) : Type := os.t -> Stack -> Result A.

Definition ret {A} (a : A) : M A := fun _ st => Ok a st.

Definition bind {A B} (c : M A) (k : A -> M B) : M B :=
  fun w st =>
    match c w st with
    | Raise e st' => Raise e st'
    | Ok a st' => k a w st'
    end.

Definition raise {A} (e : Error) : M A := fun _ st => Raise e st.

Definition get : M Stack := fun _ st => Ok st st.

Definition put (st : Stack) : M unit := fun _ _ => Ok tt st.

Definition ask : M os.t := fun w st => Ok w st.

Notation "x <- c ;; k" := (bind c (fun x => k))
  (at level 61, c at next level, right associativity).
Notation "c ;; k" := (bind c (fun _ => k))
  (at level 61, right associativity).

Definition state_of {A} (r : Result A) : Stack :=
  match r with
  | Ok _ st => st
  | Raise _ st => st
  end.

(** ** Constructs and their methods *)

Definition with_nodes (st : Stack) (ns : list (handle * Resource)) : Stack :=
  {| stack_scope := stack_scope st;
     stack_id := stack_id st;
     nodes := ns;
     grants := grants st |}.

Definition with_grants (st : Stack) (gs : list dynamodb_.Grant.t) : Stack :=
  {| stack_scope := stack_scope st;
     stack_id := stack_id st;
     nodes := nodes st;
     grants := gs |}.

Definition exists_scope (scope : handle) (st : Stack) : bool :=
  match scope with
  | [] => true
  | _ => match find_node scope (nodes st) with
         | Some _ => true
         | None => false
         end
  end.

(** [Cls(scope, id, ...)]: a new construct [id] inside [scope].  The
    scope has to exist, the id must not be empty and has to be new in
    the scope.  What a class checks about its own arguments is in the
    constructor of the class ([Function.__init__], [Canary.__init__]). *)
Definition declare (scope : handle) (id : string) (r : Resource) : M handle :=
  st <- get ;;
  let h := scope ++ [id] in
  if negb (exists_scope scope st) then raise (NoSuchConstruct scope)
  else if String.eqb id EmptyString then
    raise (ValueError "Only root constructs may have an empty ID")
  else
    match find_node h (nodes st) with
    | Some _ => raise (DuplicateId h)
    | None => put (with_nodes st (nodes st ++ [(h, r)])) ;; ret h
    end.

(** The object a variable refers to. *)
Definition deref (h : handle) : M Resource :=
  st <- get ;;
  match find_node h (nodes st) with
  | Some r => ret r
  | None => raise (NoSuchConstruct h)
  end.

(** In-place update of the object a variable refers to. *)
Definition assign (h : handle) (r : Resource) : M unit :=
  st <- get ;;
  put (with_nodes st (set_node h r (nodes st))).

Module Vpc.
(** [vpc.add_flow_log(id, destination=..., traffic_type=...)] creates a
    flow log construct inside the VPC. *)
Definition add_flow_log (vpc : handle) (id : string)
  (destination : ec2.FlowLogDestination.t)
  (traffic_type : ec2.FlowLogTrafficType.t) : M handle :=
  r <- deref vpc ;;
  match r with
  | ec2_Vpc _ =>
      declare vpc id
        (ec2_FlowLog {| ec2.FlowLog.resource_vpc := vpc;
                        ec2.FlowLog.destination := destination;
                        ec2.FlowLog.traffic_type := traffic_type |})
  | _ => raise (AttributeError vpc "add_flow_log")
  end.
End Vpc.

Module VpcEndpoint.
(** The policy document after [add_to_policy]: a statement needs a
    principal, and a statement the document already has is not added a
    second time. *)
Definition extend (policy : list iam.PolicyStatement.t)
  (statement : iam.PolicyStatement.t)
  : Error + list iam.PolicyStatement.t :=
  match iam.PolicyStatement.principals statement with
  | [] => inl (ValueError "Statement must have a Principal")
  | _ :: _ =>
      if existsb (iam.PolicyStatement_eqb statement) policy
      then inr policy
      else inr (policy ++ [statement])
  end.

(** [endpoint.add_to_policy(statement)], a method of gateway and of
    interface endpoints. *)
Definition add_to_policy (endpoint : handle)
  (statement : iam.PolicyStatement.t) : M unit :=
  r <- deref endpoint ;;
  match r with
  | ec2_GatewayVpcEndpoint p =>
      match extend (ec2.GatewayVpcEndpoint.policy p) statement with
      | inl e => raise e
      | inr policy' =>
          assign endpoint
            (ec2_GatewayVpcEndpoint
               {| ec2.GatewayVpcEndpoint.service :=
                    ec2.GatewayVpcEndpoint.service p;
                  ec2.GatewayVpcEndpoint.vpc := ec2.GatewayVpcEndpoint.vpc p;
                  ec2.GatewayVpcEndpoint.policy := policy' |})
      end
  | ec2_InterfaceVpcEndpoint p =>
      match extend (ec2.InterfaceVpcEndpoint.policy p) statement with
      | inl e => raise e
      | inr policy' =>
          assign endpoint
            (ec2_InterfaceVpcEndpoint
               {| ec2.InterfaceVpcEndpoint.vpc :=
                    ec2.InterfaceVpcEndpoint.vpc p;
                  ec2.InterfaceVpcEndpoint.service :=
                    ec2.InterfaceVpcEndpoint.service p;
                  ec2.InterfaceVpcEndpoint.subnets :=
                    ec2.InterfaceVpcEndpoint.subnets p;
                  ec2.InterfaceVpcEndpoint.policy := policy' |})
      end
  | _ => raise (AttributeError endpoint "add_to_policy")
  end.
End VpcEndpoint.

Module Table.
(** [table.grant_write_data(grantee)] records a write-data grant. *)
Definition grant_write_data (table grantee : handle) : M unit :=
  r <- deref table ;;
  g <- deref grantee ;;
  match r with
  | dynamodb_Table _ =>
      st <- get ;;
      put (with_grants st
             (grants st ++
                [{| dynamodb_.Grant.table := table;
                    dynamodb_.Grant.kind := dynamodb_.GrantKind.write_data;
                    dynamodb_.Grant.grantee := grantee |}]))
  | _ => raise (AttributeError table "grant_write_data")
  end.

(** [table.table_name]: the physical name when the table was declared
    with one, and otherwise a token for the name that deployment gives
    this construct. *)
Definition table_name (table : handle) : M tstring :=
  r <- deref table ;;
  match r with
  | dynamodb_Table p =>
      match dynamodb_.Table.table_name p with
      | Some n => ret [Lit n]
      | None => ret [Tok table "table_name"]
      end
  | _ => raise (AttributeError table "table_name")
  end.
End Table.

Module Function.
(** [lambda_.Function(scope, id, ...)]: code from an asset is looked up
    in the file system when the function is declared, and the call
    raises when nothing is there. *)
Definition __init__ (scope : handle) (id : string) (p : lambda_.Function.t)
  : M handle :=
  w <- ask ;;
  match lambda_.Function.code p with
  | lambda_.Code.from_asset asset_path =>
      if os.path_exists w (os.resolve w asset_path)
      then declare scope id (lambda_Function p)
      else raise (AssetNotFound (os.resolve w asset_path))
  | lambda_.Code.from_inline _ => declare scope id (lambda_Function p)
  end.

(** The environment with [key] bound to [value]: a key that is bound
    already is bound anew. *)
Fixpoint setenv (key : string) (value : tstring)
  (env : list (string * tstring)) : list (string * tstring) :=
  match env with
  | [] => [(key, value)]
  | (k, v) :: rest =>
      if String.eqb key k then (k, value) :: rest
      else (k, v) :: setenv key value rest
  end.

(** [fn.add_environment(key, value)] *)
Definition add_environment (fn : handle) (key : string) (value : tstring)
  : M unit :=
  r <- deref fn ;;
  match r with
  | lambda_Function p =>
      assign fn
        (lambda_Function
           {| lambda_.Function.function_name := lambda_.Function.function_name p;
              lambda_.Function.runtime := lambda_.Function.runtime p;
              lambda_.Function.code := lambda_.Function.code p;
              lambda_.Function.handler := lambda_.Function.handler p;
              lambda_.Function.vpc := lambda_.Function.vpc p;
              lambda_.Function.vpc_subnets := lambda_.Function.vpc_subnets p;
              lambda_.Function.memory_size := lambda_.Function.memory_size p;
              lambda_.Function.timeout := lambda_.Function.timeout p;
              lambda_.Function.log_retention := lambda_.Function.log_retention p;
              lambda_.Function.tracing := lambda_.Function.tracing p;
              lambda_.Function.environment :=
                setenv key value (lambda_.Function.environment p) |})
  | _ => raise (AttributeError fn "add_environment")
  end.

(** [fn.metric_errors()] *)
Definition metric_errors (fn : handle) : M cloudwatch.Metric.t :=
  r <- deref fn ;;
  match r with
  | lambda_Function _ =>
      ret {| cloudwatch.Metric.emitter := fn;
             cloudwatch.Metric.metric_name := "metric_errors" |}
  | _ => raise (AttributeError fn "metric_errors")
  end.
End Function.

Module LambdaRestApi.
(** [api.url]: the address of the deployed stage, text around the
    tokens of the API, of the region, of the URL suffix and of the
    stage that the library creates inside the API. *)
Definition url (api : handle) : M tstring :=
  r <- deref api ;;
  match r with
  | apigw_LambdaRestApi _ =>
      ret [ Lit "https://";
            Tok api "rest_api_id";
            Lit ".execute-api.";
            Pseudo "AWS::Region";
            Lit ".";
            Pseudo "AWS::URLSuffix";
            Lit "/";
            Tok (api ++ ["DeploymentStage.prod"]) "stage_name";
            Lit "/" ]
  | _ => raise (AttributeError api "url")
  end.

(** [api.metric_server_error()] *)
Definition metric_server_error (api : handle) : M cloudwatch.Metric.t :=
  r <- deref api ;;
  match r with
  | apigw_LambdaRestApi _ =>
      ret {| cloudwatch.Metric.emitter := api;
             cloudwatch.Metric.metric_name := "metric_server_error" |}
  | _ => raise (AttributeError api "metric_server_error")
  end.

(** [api.metric_client_error()] *)
Definition metric_client_error (api : handle) : M cloudwatch.Metric.t :=
  r <- deref api ;;
  match r with
  | apigw_LambdaRestApi _ =>
      ret {| cloudwatch.Metric.emitter := api;
             cloudwatch.Metric.metric_name := "metric_client_error" |}
  | _ => raise (AttributeError api "metric_client_error")
  end.
End LambdaRestApi.

Module Canary.
(** [synthetics.Canary(scope, id, **given)]: a keyword the class does
    not have is a [TypeError] before anything else happens; then the
    entry point of the test is checked and the canary is declared. *)
Definition __init__ (scope : handle) (id : string)
  (given : list (string * synthetics.arg)) : M handle :=
  match synthetics.Canary.unexpected given with
  | Some keyword => raise (TypeError "synthetics.Canary" keyword)
  | None =>
      match synthetics.Canary.of_keywords given with
      | None => raise (MissingArgument "synthetics.Canary")
      | Some p =>
          if synthetics.valid_handler
               (synthetics.Test.handler (synthetics.Canary.test p))
          then declare scope id (synthetics_Canary p)
          else raise (ValueError
                        "Canary Handler must be specified as fileName.functionName")
      end
  end.

(** [canary.metric_failed()] *)
Definition metric_failed (canary : handle) : M cloudwatch.Metric.t :=
  r <- deref canary ;;
  match r with
  | synthetics_Canary _ =>
      ret {| cloudwatch.Metric.emitter := canary;
             cloudwatch.Metric.metric_name := "metric_failed" |}
  | _ => raise (AttributeError canary "metric_failed")
  end.
End Canary.
(** ** The stack *)

Definition TABLE_NAME : string := "demo_table".

Local Open Scope string_scope.

(** The text of the canary's inline script before and after the
    interpolated [{api.url}]; doubled braces of the f-string are single
    braces of the text. *)
Definition canary_script_head : string :=
  lines
    [ EmptyString;
      "import json";
      "from aws_synthetics.selenium import synthetics_webdriver as webdriver";
      "from aws_synthetics.common import synthetics_logger as logger";
      "from aws_synthetics.common import synthetics_configuration";
      EmptyString;
      "def handler(event, context):";
      "    logger.info(" ++ dq ++ "Starting canary test" ++ dq ++ ")" ]
  ++ "    url = " ++ dq.

Definition canary_script_tail : string :=
  lines
    [ dq;
      "    ";
      "    # Configure synthetics";
      "    synthetics_configuration.set_config({";
      "        " ++ dq ++ "screenshot_on_step_start" ++ dq ++ ": False,";
      "        " ++ dq ++ "screenshot_on_step_success" ++ dq ++ ": False,";
      "        " ++ dq ++ "screenshot_on_step_failure" ++ dq ++ ": True";
      "    })";
      "    ";
      "    browser = webdriver.Chrome()";
      "    browser.set_page_load_timeout(30)";
      "    ";
      "    try:";
      "        browser.get(url)";
      "        logger.info(f" ++ dq ++ "Successfully loaded {url}" ++ dq ++ ")";
      "        logger.info(f" ++ dq ++ "Response status: {browser.title}"
        ++ dq ++ ")";
      "    finally:";
      "        browser.quit()";
      "    ";
      "    logger.info(" ++ dq ++ "Canary test completed successfully" ++ dq
        ++ ")";
      "    return {" ++ dq ++ "statusCode" ++ dq ++ ": 200}" ]
  ++ "                ".

Local Open Scope list_scope.

(** The stack as the parent constructor leaves it when it returns:
    created in [scope] under [construct_id], with nothing declared by
    the body yet. *)
Definition new_stack (scope : Construct) (construct_id : string) : Stack :=
  {| stack_scope := scope;
     stack_id := construct_id;
     nodes := [];
     grants := [] |}.

(** The body of [ApigwHttpApiLambdaDynamodbPythonCdkStack.__init__]
    after the call to the parent constructor. *)
Definition __init__body : M unit :=
  (* VPC *)
  vpc <- declare self "Ingress"
    (ec2_Vpc
       {| ec2.Vpc.cidr := "10.1.0.0/16";
          ec2.Vpc.subnet_configuration :=
            [ {| ec2.SubnetConfiguration.name := "Private-Subnet";
                 ec2.SubnetConfiguration.subnet_type :=
                   ec2.SubnetType.PRIVATE_ISOLATED;
                 ec2.SubnetConfiguration.cidr_mask := 24 |} ] |}) ;;
  (* Enable VPC Flow Logs *)
  vpc_flow_log_group <- declare self "VpcFlowLogs"
    (logs_LogGroup
       {| logs.LogGroup.retention := logs.RetentionDays.ONE_YEAR;
          logs.LogGroup.removal_policy := RemovalPolicy.DESTROY |}) ;;
  Vpc.add_flow_log vpc "FlowLog"
    (ec2.FlowLogDestination.to_cloud_watch_logs vpc_flow_log_group)
    ec2.FlowLogTrafficType.ALL ;;
  (* Create VPC endpoint for DynamoDB *)
  dynamo_db_endpoint <- declare self "DynamoDBVpce"
    (ec2_GatewayVpcEndpoint
       {| ec2.GatewayVpcEndpoint.service :=
            ec2.GatewayVpcEndpointAwsService.DYNAMODB;
          ec2.GatewayVpcEndpoint.vpc := vpc;
          ec2.GatewayVpcEndpoint.policy := [] |}) ;;
  (* This allows to customize the endpoint policy *)
  VpcEndpoint.add_to_policy dynamo_db_endpoint
    (iam.PolicyStatement
       [iam.AnyPrincipal]
       [ "dynamodb:DescribeStream";
         "dynamodb:DescribeTable";
         "dynamodb:Get*";
         "dynamodb:Query";
         "dynamodb:Scan";
         "dynamodb:CreateTable";
         "dynamodb:Delete*";
         "dynamodb:Update*";
         "dynamodb:PutItem" ]
       ["*"]) ;;
  (* Create VPC endpoint for X-Ray *)
  declare self "XRayVpce"
    (ec2_InterfaceVpcEndpoint
       {| ec2.InterfaceVpcEndpoint.vpc := vpc;
          ec2.InterfaceVpcEndpoint.service :=
            ec2.InterfaceVpcEndpointAwsService.XRAY;
          ec2.InterfaceVpcEndpoint.subnets :=
            {| ec2.SubnetSelection.subnet_type :=
                 Some ec2.SubnetType.PRIVATE_ISOLATED |};
          ec2.InterfaceVpcEndpoint.policy := [] |}) ;;
  (* Create DynamoDb Table with Point-in-Time Recovery *)
  demo_table <- declare self TABLE_NAME
    (dynamodb_Table
       {| dynamodb_.Table.partition_key :=
            {| dynamodb_.Attribute.name := "id";
               dynamodb_.Attribute.type := dynamodb_.AttributeType.STRING |};
          dynamodb_.Table.sort_key := None;
          dynamodb_.Table.table_name := None;
          dynamodb_.Table.point_in_time_recovery := true |}) ;;
  (* Create the Lambda function to receive the request *)
  api_hanlder <- Function.__init__ self "ApiHandler"
    {| lambda_.Function.function_name := Some "apigw_handler";
       lambda_.Function.runtime := lambda_.Runtime.PYTHON_3_9;
       lambda_.Function.code := lambda_.Code.from_asset "lambda/apigw-handler";
       lambda_.Function.handler := "index.handler";
       lambda_.Function.vpc := vpc;
       lambda_.Function.vpc_subnets :=
         {| ec2.SubnetSelection.subnet_type :=
              Some ec2.SubnetType.PRIVATE_ISOLATED |};
       lambda_.Function.memory_size := 1024;
       lambda_.Function.timeout := Duration.minutes 5;
       lambda_.Function.log_retention := logs.RetentionDays.ONE_YEAR;
       lambda_.Function.tracing := lambda_.Tracing.ACTIVE;
       lambda_.Function.environment := [] |} ;;
  (* grant permission to lambda to write to demo table *)
  Table.grant_write_data demo_table api_hanlder ;;
  demo_table_name <- Table.table_name demo_table ;;
  Function.add_environment api_hanlder "TABLE_NAME" demo_table_name ;;
  (* Create log group for API Gateway access logs *)
  api_log_group <- declare self "ApiGatewayAccessLogs"
    (logs_LogGroup
       {| logs.LogGroup.retention := logs.RetentionDays.ONE_YEAR;
          logs.LogGroup.removal_policy := RemovalPolicy.DESTROY |}) ;;
  (* Create API Gateway with access logging and X-Ray tracing *)
  api <- declare self "Endpoint"
    (apigw_LambdaRestApi
       {| apigw_.LambdaRestApi.handler := api_hanlder;
          apigw_.LambdaRestApi.deploy_options :=
            {| apigw_.StageOptions.access_log_destination :=
                 {| apigw_.LogGroupLogDestination.log_group := api_log_group |};
               apigw_.StageOptions.access_log_format :=
                 {| apigw_.AccessLogFormat.caller := true;
                    apigw_.AccessLogFormat.http_method := true;
                    apigw_.AccessLogFormat.ip := true;
                    apigw_.AccessLogFormat.protocol := true;
                    apigw_.AccessLogFormat.request_time := true;
                    apigw_.AccessLogFormat.resource_path := true;
                    apigw_.AccessLogFormat.response_length := true;
                    apigw_.AccessLogFormat.status := true;
                    apigw_.AccessLogFormat.user := true |};
               apigw_.StageOptions.tracing_enabled := true |} |}) ;;
  (* CloudWatch Alarm for Lambda errors *)
  m_errors <- Function.metric_errors api_hanlder ;;
  declare self "LambdaErrorAlarm"
    (cloudwatch_Alarm
       {| cloudwatch.Alarm.metric := m_errors;
          cloudwatch.Alarm.threshold := 1;
          cloudwatch.Alarm.evaluation_periods := 1;
          cloudwatch.Alarm.alarm_description :=
            "Alert when Lambda function errors occur" |}) ;;
  (* CloudWatch Alarm for API Gateway 5xx errors *)
  m_5xx <- LambdaRestApi.metric_server_error api ;;
  declare self "ApiGateway5xxAlarm"
    (cloudwatch_Alarm
       {| cloudwatch.Alarm.metric := m_5xx;
          cloudwatch.Alarm.threshold := 5;
          cloudwatch.Alarm.evaluation_periods := 2;
          cloudwatch.Alarm.alarm_description :=
            "Alert when API Gateway 5xx errors occur" |}) ;;
  (* CloudWatch Alarm for API Gateway 4xx errors *)
  m_4xx <- LambdaRestApi.metric_client_error api ;;
  declare self "ApiGateway4xxAlarm"
    (cloudwatch_Alarm
       {| cloudwatch.Alarm.metric := m_4xx;
          cloudwatch.Alarm.threshold := 10;
          cloudwatch.Alarm.evaluation_periods := 2;
          cloudwatch.Alarm.alarm_description :=
            "Alert when API Gateway 4xx errors exceed threshold" |}) ;;
  (* S3 bucket for Canary artifacts *)
  canary_bucket <- declare self "CanaryArtifactsBucket"
    (s3_Bucket
       {| s3.Bucket.encryption := s3.BucketEncryption.S3_MANAGED;
          s3.Bucket.block_public_access := s3.BlockPublicAccess.BLOCK_ALL;
          s3.Bucket.removal_policy := RemovalPolicy.DESTROY;
          s3.Bucket.auto_delete_objects := true |}) ;;
  (* CloudWatch Synthetic Canary to monitor API endpoint *)
  api_url <- LambdaRestApi.url api ;;
  canary <- Canary.__init__ self "ApiCanary"
    [ ("runtime",
       synthetics.arg_runtime
         synthetics.Runtime.SYNTHETICS_PYTHON_SELENIUM_3_0);
      ("test",
       synthetics.arg_test
         {| synthetics.Test.code :=
              synthetics.Code.from_inline
                (fstring [ FText canary_script_head;
                           FExpr api_url;
                           FText canary_script_tail ]);
            synthetics.Test.handler := "handler" |});
      ("artifacts_bucket_location",
       synthetics.arg_location
         {| synthetics.ArtifactsBucketLocation.bucket := canary_bucket |});
      ("schedule",
       synthetics.arg_schedule
         (synthetics.Schedule.rate (Duration.minutes 5)));
      ("enable_auto_start", synthetics.arg_bool true) ] ;;
  (* CloudWatch Alarm for Canary failures *)
  m_failed <- Canary.metric_failed canary ;;
  declare self "CanaryFailureAlarm"
    (cloudwatch_Alarm
       {| cloudwatch.Alarm.metric := m_failed;
          cloudwatch.Alarm.threshold := 1;
          cloudwatch.Alarm.evaluation_periods := 1;
          cloudwatch.Alarm.alarm_description :=
            "Alert when synthetic canary fails" |}) ;;
  (* Create S3 bucket for CloudTrail logs *)
  trail_bucket <- declare self "CloudTrailBucket"
    (s3_Bucket
       {| s3.Bucket.encryption := s3.BucketEncryption.S3_MANAGED;
          s3.Bucket.block_public_access := s3.BlockPublicAccess.BLOCK_ALL;
          s3.Bucket.removal_policy := RemovalPolicy.DESTROY;
          s3.Bucket.auto_delete_objects := true |}) ;;
  (* Create CloudTrail *)
  declare self "CloudTrail"
    (cloudtrail_Trail
       {| cloudtrail.Trail.bucket := trail_bucket;
          cloudtrail.Trail.is_multi_region_trail := true;
          cloudtrail.Trail.include_global_service_events := true |}) ;;
  ret tt.

(** How a call of the constructor ends. *)
Inductive Outcome : Type :=
| Returned (st : Stack)
| ParentRaised (e : Error)
| BodyRaised (e : Error) (st : Stack).

(** [ApigwHttpApiLambdaDynamodbPythonCdkStack(scope, construct_id,
    **kwargs)] evaluated in the ambient state [w].  The parent
    constructor [Stack__init__] belongs to the library: it is taken as
    given, and says whether [super().__init__(scope, construct_id,
    **kwargs)] returns ([None]) or raises.  When it returns, the body
    runs on the new stack. *)
Definition ApigwHttpApiLambdaDynamodbPythonCdkStack
  (Stack__init__ : os.t -> Construct -> string -> kwargs -> option Error)
  (w : os.t) (scope : Construct) (construct_id : string) (kw : kwargs)
  : Outcome :=
  match Stack__init__ w scope construct_id kw with
  | Some e => ParentRaised e
  | None =>
      match __init__body w (new_stack scope construct_id) with
      | Ok _ st => Returned st
      | Raise e st => BodyRaised e st
      end
  end.

(** The stack an outcome leaves behind, if any. *)
Definition built (o : Outcome) : option Stack :=
  match o with
  | Returned st => Some st
  | ParentRaised _ => None
  | BodyRaised _ st => Some st
  end.

(** The directory of the function's code, as the body names it, and
    whether the file system has it. *)
Definition asset_directory : string := "lambda/apigw-handler".

Definition asset_present (w : os.t) : bool :=
  os.path_exists w (os.resolve w asset_directory).

(** Inputs used to exercise the theorems: a parent constructor that
    accepts every stack, an application root, and two ambient states
    that differ in whether the asset directory is there. *)
Definition accepting : os.t -> Construct -> string -> kwargs -> option Error :=
  fun _ _ _ _ => None.

Definition app : Construct := {| construct_path := [] |}.

Definition with_asset : os.t :=
  {| os.environ := [];
     os.getcwd := "/app";
     os.path_exists := String.eqb "/app/lambda/apigw-handler" |}.

Definition without_asset : os.t :=
  {| os.environ := [];
     os.getcwd := "/app";
     os.path_exists := fun _ => false |}.

(** ** Reading the state of the stack *)

Fixpoint select {A : Type} (f : Resource -> option A)
  (ns : list (handle * Resource)) : list (handle * A) :=
  match ns with
  | [] => []
  | (h, r) :: rest =>
      match f r with
      | Some a => (h, a) :: select f rest
      | None => select f rest
      end
  end.

Definition as_Vpc (r : Resource) : option ec2.Vpc.t :=
  match r with ec2_Vpc p => Some p | _ => None end.

Definition as_GatewayVpcEndpoint (r : Resource)
  : option ec2.GatewayVpcEndpoint.t :=
  match r with ec2_GatewayVpcEndpoint p => Some p | _ => None end.

Definition as_Table (r : Resource) : option dynamodb_.Table.t :=
  match r with dynamodb_Table p => Some p | _ => None end.

Definition as_Function (r : Resource) : option lambda_.Function.t :=
  match r with lambda_Function p => Some p | _ => None end.

Definition as_LambdaRestApi (r : Resource) : option apigw_.LambdaRestApi.t :=
  match r with apigw_LambdaRestApi p => Some p | _ => None end.

Definition as_Alarm (r : Resource) : option cloudwatch.Alarm.t :=
  match r with cloudwatch_Alarm p => Some p | _ => None end.

Definition as_Canary (r : Resource) : option synthetics.Canary.t :=
  match r with synthetics_Canary p => Some p | _ => None end.

Definition vpcs (st : Stack) := select as_Vpc (nodes st).
Definition gateway_endpoints (st : Stack) :=
  select as_GatewayVpcEndpoint (nodes st).
Definition tables (st : Stack) := select as_Table (nodes st).
Definition functions (st : Stack) := select as_Function (nodes st).
Definition rest_apis (st : Stack) := select as_LambdaRestApi (nodes st).
Definition alarms (st : Stack) := select as_Alarm (nodes st).
Definition canaries (st : Stack) := select as_Canary (nodes st).

(** A metric does not dangle when its emitter is a construct of the
    stack and of the class that has the metric method. *)
Definition emits (r : Resource) (metric_name : string) : bool :=
  match r with
  | lambda_Function _ => String.eqb metric_name "metric_errors"
  | apigw_LambdaRestApi _ =>
      String.eqb metric_name "metric_server_error"
      || String.eqb metric_name "metric_client_error"
  | synthetics_Canary _ => String.eqb metric_name "metric_failed"
  | _ => false
  end.

Definition metric_resolves (st : Stack) (m : cloudwatch.Metric.t) : bool :=
  match find_node (cloudwatch.Metric.emitter m) (nodes st) with
  | Some r => emits r (cloudwatch.Metric.metric_name m)
  | None => false
  end.

(** Grants that give more than write access to data. *)
Definition grants_read (k : dynamodb_.GrantKind.t) : bool :=
  match k with
  | dynamodb_.GrantKind.write_data => false
  | _ => true
  end.

(** The allow-list as the specification words it. *)
Definition declared_allow_list : list string :=
  map (String.append "dynamodb:")
    [ "DescribeStream"; "DescribeTable"; "Get*"; "Query"; "Scan";
      "CreateTable"; "Delete*"; "Update*"; "PutItem" ].

(** Value of an environment variable of a function. *)
Fixpoint getenv (key : string) (env : list (string * tstring))
  : option tstring :=
  match env with
  | [] => None
  | (k, v) :: rest => if String.eqb key k then Some v else getenv key rest
  end.

(** *** More views of the state *)

Definition as_FlowLog (r : Resource) : option ec2.FlowLog.t :=
  match r with ec2_FlowLog p => Some p | _ => None end.

Definition as_InterfaceVpcEndpoint (r : Resource)
  : option ec2.InterfaceVpcEndpoint.t :=
  match r with ec2_InterfaceVpcEndpoint p => Some p | _ => None end.

Definition as_LogGroup (r : Resource) : option logs.LogGroup.t :=
  match r with logs_LogGroup p => Some p | _ => None end.

Definition as_Bucket (r : Resource) : option s3.Bucket.t :=
  match r with s3_Bucket p => Some p | _ => None end.

Definition as_Trail (r : Resource) : option cloudtrail.Trail.t :=
  match r with cloudtrail_Trail p => Some p | _ => None end.

Definition flow_logs (st : Stack) := select as_FlowLog (nodes st).
Definition interface_endpoints (st : Stack) :=
  select as_InterfaceVpcEndpoint (nodes st).
Definition log_groups (st : Stack) := select as_LogGroup (nodes st).
Definition buckets (st : Stack) := select as_Bucket (nodes st).
Definition trails (st : Stack) := select as_Trail (nodes st).

Definition is_declared (h : handle) (st : Stack) : bool :=
  match find_node h (nodes st) with
  | Some _ => true
  | None => false
  end.

(** The class a construct was instantiated from. *)
Inductive Class : Type :=
| K_Vpc | K_FlowLog | K_GatewayVpcEndpoint | K_InterfaceVpcEndpoint
| K_LogGroup | K_Table | K_Function | K_LambdaRestApi | K_Alarm
| K_Bucket | K_Canary | K_Trail.

Definition class_of (r : Resource) : Class :=
  match r with
  | ec2_Vpc _ => K_Vpc
  | ec2_FlowLog _ => K_FlowLog
  | ec2_GatewayVpcEndpoint _ => K_GatewayVpcEndpoint
  | ec2_InterfaceVpcEndpoint _ => K_InterfaceVpcEndpoint
  | logs_LogGroup _ => K_LogGroup
  | dynamodb_Table _ => K_Table
  | lambda_Function _ => K_Function
  | apigw_LambdaRestApi _ => K_LambdaRestApi
  | cloudwatch_Alarm _ => K_Alarm
  | s3_Bucket _ => K_Bucket
  | synthetics_Canary _ => K_Canary
  | cloudtrail_Trail _ => K_Trail
  end.

Definition Class_eqb (a b : Class) : bool :=
  match a, b with
  | K_Vpc, K_Vpc | K_FlowLog, K_FlowLog
  | K_GatewayVpcEndpoint, K_GatewayVpcEndpoint
  | K_InterfaceVpcEndpoint, K_InterfaceVpcEndpoint
  | K_LogGroup, K_LogGroup | K_Table, K_Table | K_Function, K_Function
  | K_LambdaRestApi, K_LambdaRestApi | K_Alarm, K_Alarm
  | K_Bucket, K_Bucket | K_Canary, K_Canary | K_Trail, K_Trail => true
  | _, _ => false
  end.

(** The constructs that the arguments of a construct refer to, each
    with the classes the argument accepts: [vpc=], [bucket=],
    [handler=], a log group destination, the emitter of [metric=]. *)
Definition references (r : Resource) : list (handle * list Class) :=
  match r with
  | ec2_Vpc _ => []
  | ec2_FlowLog p =>
      [ (ec2.FlowLog.resource_vpc p, [K_Vpc]);
        (match ec2.FlowLog.destination p with
         | ec2.FlowLogDestination.to_cloud_watch_logs g => g
         end, [K_LogGroup]) ]
  | ec2_GatewayVpcEndpoint p => [(ec2.GatewayVpcEndpoint.vpc p, [K_Vpc])]
  | ec2_InterfaceVpcEndpoint p => [(ec2.InterfaceVpcEndpoint.vpc p, [K_Vpc])]
  | logs_LogGroup _ => []
  | dynamodb_Table _ => []
  | lambda_Function p => [(lambda_.Function.vpc p, [K_Vpc])]
  | apigw_LambdaRestApi p =>
      [ (apigw_.LambdaRestApi.handler p, [K_Function]);
        (apigw_.LogGroupLogDestination.log_group
           (apigw_.StageOptions.access_log_destination
              (apigw_.LambdaRestApi.deploy_options p)), [K_LogGroup]) ]
  | cloudwatch_Alarm p =>
      [ (cloudwatch.Metric.emitter (cloudwatch.Alarm.metric p),
         [K_Function; K_LambdaRestApi; K_Canary]) ]
  | s3_Bucket _ => []
  | synthetics_Canary p =>
      match synthetics.Canary.artifacts_bucket_location p with
      | Some l => [(synthetics.ArtifactsBucketLocation.bucket l, [K_Bucket])]
      | None => []
      end
  | cloudtrail_Trail p => [(cloudtrail.Trail.bucket p, [K_Bucket])]
  end.

(** A reference resolves in a store when the store has a construct at
    the handle and its class is one the argument accepts. *)
Definition resolves_to (ns : list (handle * Resource))
  (ref : handle * list Class) : Prop :=
  exists r, find_node (fst ref) ns = Some r /\ In (class_of r) (snd ref).

Definition resolvesb (ns : list (handle * Resource))
  (ref : handle * list Class) : bool :=
  match find_node (fst ref) ns with
  | Some r => existsb (Class_eqb (class_of r)) (snd ref)
  | None => false
  end.

(** Every construct of [rest] refers only to constructs of [seen] or to
    constructs that come before it in [rest]. *)
Fixpoint declared_before_use (seen rest : list (handle * Resource)) : bool :=
  match rest with
  | [] => true
  | (h, r) :: rest' =>
      forallb (resolvesb seen) (references r)
      && declared_before_use (seen ++ [(h, r)]) rest'
  end.

(** The states the body reaches, in evaluated form: where it stops
    when the asset directory is there, and where it stops when it is
    not. *)
Definition built_before_canary (scope : Construct) (construct_id : string)
  : Stack :=
  Eval vm_compute in
    state_of (__init__body with_asset (new_stack scope construct_id)).

Definition built_before_function (scope : Construct) (construct_id : string)
  : Stack :=
  Eval vm_compute in
    state_of (__init__body without_asset (new_stack scope construct_id)).

(** ** Where the body stops *)

Lemma body_with_asset (w : os.t) (scope : Construct) (construct_id : string) :
  asset_present w = true ->
  __init__body w (new_stack scope construct_id)
  = Raise (TypeError "synthetics.Canary" "enable_auto_start")
          (built_before_canary scope construct_id).
Proof.
  intros H. unfold asset_present, asset_directory in H.
  cbv -[os.path_exists os.resolve].
  rewrite H. reflexivity.
Qed.

Lemma body_without_asset (w : os.t) (scope : Construct)
  (construct_id : string) :
  asset_present w = false ->
  __init__body w (new_stack scope construct_id)
  = Raise (AssetNotFound (os.resolve w asset_directory))
          (built_before_function scope construct_id).
Proof.
  intros H. unfold asset_present, asset_directory in H.
  cbv -[os.path_exists os.resolve].
  rewrite H. reflexivity.
Qed.

Lemma constructor_parent_raises
  (Stack__init__ : os.t -> Construct -> string -> kwargs -> option Error)
  (w : os.t) (scope : Construct) (construct_id : string) (kw : kwargs)
  (e : Error) :
  Stack__init__ w scope construct_id kw = Some e ->
  ApigwHttpApiLambdaDynamodbPythonCdkStack Stack__init__ w scope construct_id kw
  = ParentRaised e.
Proof.
  intros Hp. unfold ApigwHttpApiLambdaDynamodbPythonCdkStack.
  rewrite Hp. reflexivity.
Qed.

Lemma constructor_with_asset
  (Stack__init__ : os.t -> Construct -> string -> kwargs -> option Error)
  (w : os.t) (scope : Construct) (construct_id : string) (kw : kwargs) :
  Stack__init__ w scope construct_id kw = None ->
  asset_present w = true ->
  ApigwHttpApiLambdaDynamodbPythonCdkStack Stack__init__ w scope construct_id kw
  = BodyRaised (TypeError "synthetics.Canary" "enable_auto_start")
               (built_before_canary scope construct_id).
Proof.
  intros Hp Ha. unfold ApigwHttpApiLambdaDynamodbPythonCdkStack.
  rewrite Hp, (body_with_asset w scope construct_id Ha). reflexivity.
Qed.

Lemma constructor_without_asset
  (Stack__init__ : os.t -> Construct -> string -> kwargs -> option Error)
  (w : os.t) (scope : Construct) (construct_id : string) (kw : kwargs) :
  Stack__init__ w scope construct_id kw = None ->
  asset_present w = false ->
  ApigwHttpApiLambdaDynamodbPythonCdkStack Stack__init__ w scope construct_id kw
  = BodyRaised (AssetNotFound (os.resolve w asset_directory))
               (built_before_function scope construct_id).
Proof.
  intros Hp Ha. unfold ApigwHttpApiLambdaDynamodbPythonCdkStack.
  rewrite Hp, (body_without_asset w scope construct_id Ha). reflexivity.
Qed.

(** ** References between constructs *)

Lemma Class_eqb_eq (a b : Class) : Class_eqb a b = true -> a = b.
Proof. destruct a, b; simpl; intros H; try reflexivity; discriminate H. Qed.

Lemma resolvesb_true (ns : list (handle * Resource))
  (ref : handle * list Class) :
  resolvesb ns ref = true -> resolves_to ns ref.
Proof.
  unfold resolvesb, resolves_to.
  destruct (find_node (fst ref) ns) as [r|]; [| discriminate].
  intros H. exists r. split; [reflexivity |].
  apply existsb_exists in H. destruct H as [k [Hin Hk]].
  apply Class_eqb_eq in Hk. rewrite Hk. exact Hin.
Qed.

(** What the check [declared_before_use] establishes. *)
Lemma declared_before_use_nth (rest : list (handle * Resource)) :
  forall seen,
    declared_before_use seen rest = true ->
    forall i h r, nth_error rest i = Some (h, r) ->
    forall ref, In ref (references r) ->
    resolves_to (seen ++ firstn i rest) ref.
Proof.
  induction rest as [|[h0 r0] rest IH]; intros seen Hok i h r Hnth ref Hin.
  - destruct i; discriminate Hnth.
  - simpl in Hok. apply andb_true_iff in Hok. destruct Hok as [Hhere Hrest].
    destruct i as [|i].
    + simpl in Hnth. injection Hnth as <- <-.
      simpl. rewrite app_nil_r.
      apply resolvesb_true.
      rewrite forallb_forall in Hhere. apply Hhere. exact Hin.
    + simpl in Hnth. simpl firstn.
      change (seen ++ (h0, r0) :: firstn i rest)
        with (seen ++ [(h0, r0)] ++ firstn i rest).
      rewrite app_assoc.
      apply (IH (seen ++ [(h0, r0)]) Hrest i h r Hnth ref Hin).
Qed.

Lemma canary_state_declared_before_use (scope : Construct)
  (construct_id : string) :
  declared_before_use [] (nodes (built_before_canary scope construct_id))
  = true.
Proof. vm_compute. reflexivity. Qed.

Lemma function_state_declared_before_use (scope : Construct)
  (construct_id : string) :
  declared_before_use [] (nodes (built_before_function scope construct_id))
  = true.
Proof. vm_compute. reflexivity. Qed.

(** ** The claims *)

(** C1: whenever the parent constructor accepts the stack, the body
    declares the DynamoDB gateway endpoint and gives it one policy
    statement, which allows, for any principal and on every resource,
    the actions of the declared allow-list and no other action.  (The
    constructor raises later on; the endpoint is in the state it
    leaves.) *)
Theorem C1_endpoint_policy_allow_list :
  forall (Stack__init__ : os.t -> Construct -> string -> kwargs -> option Error)
         (w : os.t) (scope : Construct) (construct_id : string) (kw : kwargs),
    Stack__init__ w scope construct_id kw = None ->
  exists e st ep stmt,
    ApigwHttpApiLambdaDynamodbPythonCdkStack Stack__init__ w scope construct_id kw = BodyRaised e st
    /\ gateway_endpoints st = [(["DynamoDBVpce"], ep)]
    /\ ec2.GatewayVpcEndpoint.service ep
       = ec2.GatewayVpcEndpointAwsService.DYNAMODB
    /\ ec2.GatewayVpcEndpoint.policy ep = [stmt]
    /\ iam.PolicyStatement.effect stmt = iam.Effect.ALLOW
    /\ iam.PolicyStatement.principals stmt = [iam.AnyPrincipal]
    /\ iam.PolicyStatement.resources stmt = ["*"]
    /\ (forall a, In a (iam.PolicyStatement.actions stmt)
                  <-> In a declared_allow_list)
    /\ NoDup (iam.PolicyStatement.actions stmt)
    /\ length (iam.PolicyStatement.actions stmt) = 9.
Proof.
  intros Stack__init__ w scope construct_id kw Hp.
  destruct (asset_present w) eqn:Ha.
  - eexists. exists (built_before_canary scope construct_id).
    do 2 eexists.
    split; [exact (constructor_with_asset _ _ _ _ _ Hp Ha) |].
    do 6 (split; [reflexivity |]).
    split; [intros a; split; intros H; exact H |].
    split; [| reflexivity].
    simpl. repeat (constructor; [simpl; intuition discriminate |]). constructor.
  - eexists. exists (built_before_function scope construct_id).
    do 2 eexists.
    split; [exact (constructor_without_asset _ _ _ _ _ Hp Ha) |].
    do 6 (split; [reflexivity |]).
    split; [intros a; split; intros H; exact H |].
    split; [| reflexivity].
    simpl. repeat (constructor; [simpl; intuition discriminate |]). constructor.
Qed.

Lemma C1_endpoint_policy_allow_list_witness :
  accepting with_asset app "ApigwStack" [] = None
  /\ (exists e st ep stmt,
     ApigwHttpApiLambdaDynamodbPythonCdkStack accepting with_asset app "ApigwStack" [] = BodyRaised e st
     /\ gateway_endpoints st = [(["DynamoDBVpce"], ep)]
     /\ ec2.GatewayVpcEndpoint.service ep
        = ec2.GatewayVpcEndpointAwsService.DYNAMODB
     /\ ec2.GatewayVpcEndpoint.policy ep = [stmt]
     /\ iam.PolicyStatement.effect stmt = iam.Effect.ALLOW
     /\ iam.PolicyStatement.principals stmt = [iam.AnyPrincipal]
     /\ iam.PolicyStatement.resources stmt = ["*"]
     /\ (forall a, In a (iam.PolicyStatement.actions stmt)
                   <-> In a declared_allow_list)
     /\ NoDup (iam.PolicyStatement.actions stmt)
     /\ length (iam.PolicyStatement.actions stmt) = 9).
Proof.
  split; [reflexivity |].
  apply (C1_endpoint_policy_allow_list accepting with_asset app "ApigwStack" []); reflexivity.
Defined.

(** C2: whenever the parent constructor accepts the stack and the asset
    directory is there, the one grant declared is the write-data grant
    of the table to the Lambda function; no grant with read access is
    declared. *)
Theorem C2_only_write_grant :
  forall (Stack__init__ : os.t -> Construct -> string -> kwargs -> option Error)
         (w : os.t) (scope : Construct) (construct_id : string) (kw : kwargs),
    Stack__init__ w scope construct_id kw = None ->
    asset_present w = true ->
  exists st t fn,
    ApigwHttpApiLambdaDynamodbPythonCdkStack Stack__init__ w scope construct_id kw
    = BodyRaised (TypeError "synthetics.Canary" "enable_auto_start") st
    /\ grants st
       = [ {| dynamodb_.Grant.table := [TABLE_NAME];
              dynamodb_.Grant.kind := dynamodb_.GrantKind.write_data;
              dynamodb_.Grant.grantee := ["ApiHandler"] |} ]
    /\ find_node [TABLE_NAME] (nodes st) = Some (dynamodb_Table t)
    /\ find_node ["ApiHandler"] (nodes st) = Some (lambda_Function fn)
    /\ (forall g, In g (grants st) ->
          grants_read (dynamodb_.Grant.kind g) = false).
Proof.
  intros Stack__init__ w scope construct_id kw Hp Ha.
  exists (built_before_canary scope construct_id).
  do 2 eexists.
  split; [exact (constructor_with_asset _ _ _ _ _ Hp Ha) |].
  do 3 (split; [reflexivity |]).
  intros g [<- | []]. reflexivity.
Qed.

Lemma C2_only_write_grant_witness :
  accepting with_asset app "ApigwStack" [] = None
  /\ asset_present with_asset = true
  /\ (exists st t fn,
     ApigwHttpApiLambdaDynamodbPythonCdkStack accepting with_asset app "ApigwStack" []
     = BodyRaised (TypeError "synthetics.Canary" "enable_auto_start") st
     /\ grants st
        = [ {| dynamodb_.Grant.table := [TABLE_NAME];
               dynamodb_.Grant.kind := dynamodb_.GrantKind.write_data;
               dynamodb_.Grant.grantee := ["ApiHandler"] |} ]
     /\ find_node [TABLE_NAME] (nodes st) = Some (dynamodb_Table t)
     /\ find_node ["ApiHandler"] (nodes st) = Some (lambda_Function fn)
     /\ (forall g, In g (grants st) ->
           grants_read (dynamodb_.Grant.kind g) = false)).
Proof.
  split; [reflexivity |].
  split; [reflexivity |].
  apply (C2_only_write_grant accepting with_asset app "ApigwStack" []); reflexivity.
Defined.

(** C3: whenever the parent constructor accepts the stack and the asset
    directory is there, the VPC's only subnet group is PRIVATE_ISOLATED
    and the Lambda function is declared in that VPC with a
    PRIVATE_ISOLATED subnet selection, which picks exactly the VPC's
    isolated subnet groups. *)
Theorem C3_isolated_placement :
  forall (Stack__init__ : os.t -> Construct -> string -> kwargs -> option Error)
         (w : os.t) (scope : Construct) (construct_id : string) (kw : kwargs),
    Stack__init__ w scope construct_id kw = None ->
    asset_present w = true ->
  exists st v fn,
    ApigwHttpApiLambdaDynamodbPythonCdkStack Stack__init__ w scope construct_id kw
    = BodyRaised (TypeError "synthetics.Canary" "enable_auto_start") st
    /\ vpcs st = [(["Ingress"], v)]
    /\ Forall (fun c => ec2.SubnetConfiguration.subnet_type c
                        = ec2.SubnetType.PRIVATE_ISOLATED)
              (ec2.Vpc.subnet_configuration v)
    /\ ec2.Vpc.subnet_configuration v <> []
    /\ functions st = [(["ApiHandler"], fn)]
    /\ lambda_.Function.vpc fn = ["Ingress"]
    /\ ec2.SubnetSelection.subnet_type (lambda_.Function.vpc_subnets fn)
       = Some ec2.SubnetType.PRIVATE_ISOLATED
    /\ ec2.subnets_of_type v ec2.SubnetType.PRIVATE_ISOLATED
       = ec2.Vpc.subnet_configuration v.
Proof.
  intros Stack__init__ w scope construct_id kw Hp Ha.
  exists (built_before_canary scope construct_id).
  do 2 eexists.
  split; [exact (constructor_with_asset _ _ _ _ _ Hp Ha) |].
  split; [reflexivity |].
  split; [repeat constructor |].
  split; [discriminate |].
  split; [reflexivity |].
  repeat split.
Qed.

Lemma C3_isolated_placement_witness :
  accepting with_asset app "ApigwStack" [] = None
  /\ asset_present with_asset = true
  /\ (exists st v fn,
     ApigwHttpApiLambdaDynamodbPythonCdkStack accepting with_asset app "ApigwStack" []
     = BodyRaised (TypeError "synthetics.Canary" "enable_auto_start") st
     /\ vpcs st = [(["Ingress"], v)]
     /\ Forall (fun c => ec2.SubnetConfiguration.subnet_type c
                         = ec2.SubnetType.PRIVATE_ISOLATED)
               (ec2.Vpc.subnet_configuration v)
     /\ ec2.Vpc.subnet_configuration v <> []
     /\ functions st = [(["ApiHandler"], fn)]
     /\ lambda_.Function.vpc fn = ["Ingress"]
     /\ ec2.SubnetSelection.subnet_type (lambda_.Function.vpc_subnets fn)
        = Some ec2.SubnetType.PRIVATE_ISOLATED
     /\ ec2.subnets_of_type v ec2.SubnetType.PRIVATE_ISOLATED
        = ec2.Vpc.subnet_configuration v).
Proof.
  split; [reflexivity |].
  split; [reflexivity |].
  apply (C3_isolated_placement accepting with_asset app "ApigwStack" []); reflexivity.
Defined.

(** C4: whenever the parent constructor accepts the stack, the table is
    declared with the single partition key "id" of string type, with no
    sort key, and with point-in-time recovery on. *)
Theorem C4_table_key_and_recovery :
  forall (Stack__init__ : os.t -> Construct -> string -> kwargs -> option Error)
         (w : os.t) (scope : Construct) (construct_id : string) (kw : kwargs),
    Stack__init__ w scope construct_id kw = None ->
  exists e st t,
    ApigwHttpApiLambdaDynamodbPythonCdkStack Stack__init__ w scope construct_id kw = BodyRaised e st
    /\ tables st = [([TABLE_NAME], t)]
    /\ dynamodb_.Table.key_attributes t
       = [ {| dynamodb_.Attribute.name := "id";
              dynamodb_.Attribute.type := dynamodb_.AttributeType.STRING |} ]
    /\ dynamodb_.Table.sort_key t = None
    /\ dynamodb_.Table.point_in_time_recovery t = true.
Proof.
  intros Stack__init__ w scope construct_id kw Hp.
  destruct (asset_present w) eqn:Ha.
  - eexists. exists (built_before_canary scope construct_id).
    do 1 eexists.
    split; [exact (constructor_with_asset _ _ _ _ _ Hp Ha) |].
    split; [reflexivity |].
    unfold dynamodb_.Table.key_attributes. simpl. auto.
  - eexists. exists (built_before_function scope construct_id).
    do 1 eexists.
    split; [exact (constructor_without_asset _ _ _ _ _ Hp Ha) |].
    split; [reflexivity |].
    unfold dynamodb_.Table.key_attributes. simpl. auto.
Qed.

Lemma C4_table_key_and_recovery_witness :
  accepting with_asset app "ApigwStack" [] = None
  /\ (exists e st t,
     ApigwHttpApiLambdaDynamodbPythonCdkStack accepting with_asset app "ApigwStack" [] = BodyRaised e st
     /\ tables st = [([TABLE_NAME], t)]
     /\ dynamodb_.Table.key_attributes t
        = [ {| dynamodb_.Attribute.name := "id";
               dynamodb_.Attribute.type := dynamodb_.AttributeType.STRING |} ]
     /\ dynamodb_.Table.sort_key t = None
     /\ dynamodb_.Table.point_in_time_recovery t = true).
Proof.
  split; [reflexivity |].
  apply (C4_table_key_and_recovery accepting with_asset app "ApigwStack" []); reflexivity.
Defined.

(** C5: whenever the parent constructor accepts the stack and the asset
    directory is there, the access-log format of the REST API's stage
    includes each of the nine standard fields. *)
Theorem C5_access_log_fields :
  forall (Stack__init__ : os.t -> Construct -> string -> kwargs -> option Error)
         (w : os.t) (scope : Construct) (construct_id : string) (kw : kwargs),
    Stack__init__ w scope construct_id kw = None ->
    asset_present w = true ->
  exists st api,
    ApigwHttpApiLambdaDynamodbPythonCdkStack Stack__init__ w scope construct_id kw
    = BodyRaised (TypeError "synthetics.Canary" "enable_auto_start") st
    /\ rest_apis st = [(["Endpoint"], api)]
    /\ (forall x : apigw_.AccessLogFormat.field,
          apigw_.AccessLogFormat.includes
            (apigw_.StageOptions.access_log_format
               (apigw_.LambdaRestApi.deploy_options api)) x = true).
Proof.
  intros Stack__init__ w scope construct_id kw Hp Ha.
  exists (built_before_canary scope construct_id).
  do 1 eexists.
  split; [exact (constructor_with_asset _ _ _ _ _ Hp Ha) |].
  split; [reflexivity |].
  intros x. destruct x; reflexivity.
Qed.

Lemma C5_access_log_fields_witness :
  accepting with_asset app "ApigwStack" [] = None
  /\ asset_present with_asset = true
  /\ (exists st api,
     ApigwHttpApiLambdaDynamodbPythonCdkStack accepting with_asset app "ApigwStack" []
     = BodyRaised (TypeError "synthetics.Canary" "enable_auto_start") st
     /\ rest_apis st = [(["Endpoint"], api)]
     /\ (forall x : apigw_.AccessLogFormat.field,
           apigw_.AccessLogFormat.includes
             (apigw_.StageOptions.access_log_format
                (apigw_.LambdaRestApi.deploy_options api)) x = true)).
Proof.
  split; [reflexivity |].
  split; [reflexivity |].
  apply (C5_access_log_fields accepting with_asset app "ApigwStack" []); reflexivity.
Defined.

(** C6, as the code has it: the call that declares the canary raises, so
    the body declares three alarms (Lambda errors 1/1, API server errors
    5/2, API client errors 10/2), each on a metric of a construct of the
    stack; the canary and the alarm on its failures are never
    declared. *)
Theorem C6_canary_alarm_never_declared :
  forall (Stack__init__ : os.t -> Construct -> string -> kwargs -> option Error)
         (w : os.t) (scope : Construct) (construct_id : string) (kw : kwargs),
    Stack__init__ w scope construct_id kw = None ->
    asset_present w = true ->
  exists st,
    ApigwHttpApiLambdaDynamodbPythonCdkStack Stack__init__ w scope construct_id kw
    = BodyRaised (TypeError "synthetics.Canary" "enable_auto_start") st
    /\ map (fun a =>
              (fst a,
               cloudwatch.Metric.emitter (cloudwatch.Alarm.metric (snd a)),
               cloudwatch.Metric.metric_name (cloudwatch.Alarm.metric (snd a)),
               cloudwatch.Alarm.threshold (snd a),
               cloudwatch.Alarm.evaluation_periods (snd a)))
           (alarms st)
       = [ (["LambdaErrorAlarm"], ["ApiHandler"], "metric_errors", 1, 1);
           (["ApiGateway5xxAlarm"], ["Endpoint"], "metric_server_error", 5, 2);
           (["ApiGateway4xxAlarm"], ["Endpoint"], "metric_client_error", 10, 2)
         ]%Z
    /\ Forall (fun a => metric_resolves st (cloudwatch.Alarm.metric (snd a))
                        = true)
              (alarms st)
    /\ is_declared ["ApiCanary"] st = false
    /\ is_declared ["CanaryFailureAlarm"] st = false.
Proof.
  intros Stack__init__ w scope construct_id kw Hp Ha.
  exists (built_before_canary scope construct_id).
  split; [exact (constructor_with_asset _ _ _ _ _ Hp Ha) |].
  split; [reflexivity |].
  split; [| split; reflexivity].
  repeat (apply Forall_cons; [reflexivity |]). apply Forall_nil.
Qed.

Lemma C6_canary_alarm_never_declared_witness :
  accepting with_asset app "ApigwStack" [] = None
  /\ asset_present with_asset = true
  /\ (exists st,
     ApigwHttpApiLambdaDynamodbPythonCdkStack accepting with_asset app "ApigwStack" []
     = BodyRaised (TypeError "synthetics.Canary" "enable_auto_start") st
     /\ map (fun a =>
               (fst a,
                cloudwatch.Metric.emitter (cloudwatch.Alarm.metric (snd a)),
                cloudwatch.Metric.metric_name (cloudwatch.Alarm.metric (snd a)),
                cloudwatch.Alarm.threshold (snd a),
                cloudwatch.Alarm.evaluation_periods (snd a)))
            (alarms st)
        = [ (["LambdaErrorAlarm"], ["ApiHandler"], "metric_errors", 1, 1);
            (["ApiGateway5xxAlarm"], ["Endpoint"], "metric_server_error", 5, 2);
            (["ApiGateway4xxAlarm"], ["Endpoint"], "metric_client_error", 10, 2)
          ]%Z
     /\ Forall (fun a => metric_resolves st (cloudwatch.Alarm.metric (snd a))
                         = true)
               (alarms st)
     /\ is_declared ["ApiCanary"] st = false
     /\ is_declared ["CanaryFailureAlarm"] st = false).
Proof.
  split; [reflexivity |].
  split; [reflexivity |].
  apply (C6_canary_alarm_never_declared accepting with_asset app "ApigwStack" []); reflexivity.
Defined.

(** C7, as stated, fails: in the state the constructor leaves for a
    stack created under the application root, the table at id TABLE_NAME
    is not declared with TABLE_NAME as its physical name. *)
Lemma C7_physical_name_counterexample :
  ~ (exists st t,
       built (ApigwHttpApiLambdaDynamodbPythonCdkStack
                accepting with_asset app "ApigwStack" []) = Some st
       /\ find_node [TABLE_NAME] (nodes st) = Some (dynamodb_Table t)
       /\ dynamodb_.Table.table_name t = Some TABLE_NAME).
Proof.
  intros [st [t [Hbuilt [Hfind Hname]]]].
  rewrite (constructor_with_asset accepting with_asset app "ApigwStack" []
             eq_refl eq_refl) in Hbuilt.
  simpl in Hbuilt. injection Hbuilt as <-.
  vm_compute in Hfind. injection Hfind as <-.
  discriminate Hname.
Qed.

(** C7, amended: "demo_table" is the construct id of the table and not
    its physical name: the table is declared without a physical name,
    and the name it hands out is a deployment-time token, not the text
    "demo_table". *)
Theorem C7_table_name_is_construct_id :
  forall (Stack__init__ : os.t -> Construct -> string -> kwargs -> option Error)
         (w : os.t) (scope : Construct) (construct_id : string) (kw : kwargs),
    Stack__init__ w scope construct_id kw = None ->
  exists e st t,
    ApigwHttpApiLambdaDynamodbPythonCdkStack Stack__init__ w scope construct_id kw = BodyRaised e st
    /\ TABLE_NAME = "demo_table"
    /\ tables st = [([TABLE_NAME], t)]
    /\ dynamodb_.Table.table_name t = None
    /\ Table.table_name [TABLE_NAME] w st
       = Ok [Tok [TABLE_NAME] "table_name"] st
    /\ [Tok [TABLE_NAME] "table_name"] <> [Lit TABLE_NAME].
Proof.
  intros Stack__init__ w scope construct_id kw Hp.
  destruct (asset_present w) eqn:Ha.
  - eexists. exists (built_before_canary scope construct_id).
    do 1 eexists.
    split; [exact (constructor_with_asset _ _ _ _ _ Hp Ha) |].
    do 4 (split; [reflexivity |]).
    discriminate.
  - eexists. exists (built_before_function scope construct_id).
    do 1 eexists.
    split; [exact (constructor_without_asset _ _ _ _ _ Hp Ha) |].
    do 4 (split; [reflexivity |]).
    discriminate.
Qed.

Lemma C7_table_name_is_construct_id_witness :
  accepting with_asset app "ApigwStack" [] = None
  /\ (exists e st t,
     ApigwHttpApiLambdaDynamodbPythonCdkStack accepting with_asset app "ApigwStack" [] = BodyRaised e st
     /\ TABLE_NAME = "demo_table"
     /\ tables st = [([TABLE_NAME], t)]
     /\ dynamodb_.Table.table_name t = None
     /\ Table.table_name [TABLE_NAME] with_asset st
        = Ok [Tok [TABLE_NAME] "table_name"] st
     /\ [Tok [TABLE_NAME] "table_name"] <> [Lit TABLE_NAME]).
Proof.
  split; [reflexivity |].
  apply (C7_table_name_is_construct_id accepting with_asset app "ApigwStack" []); reflexivity.
Defined.

(** C8, as the code has it: the call that declares the canary passes
    the keyword enable_auto_start, which the class does not have (its
    keyword is start_after_creation), and raises a TypeError; no canary
    is declared.  The API and the artifacts bucket it was to use are
    declared.  The entry point "handler" passed to the test is not of
    the form file.function either. *)
Theorem C8_canary_call_raises :
  forall (Stack__init__ : os.t -> Construct -> string -> kwargs -> option Error)
         (w : os.t) (scope : Construct) (construct_id : string) (kw : kwargs),
    Stack__init__ w scope construct_id kw = None ->
    asset_present w = true ->
  exists st,
    ApigwHttpApiLambdaDynamodbPythonCdkStack Stack__init__ w scope construct_id kw
    = BodyRaised (TypeError "synthetics.Canary" "enable_auto_start") st
    /\ canaries st = []
    /\ is_declared ["ApiCanary"] st = false
    /\ synthetics.Canary.accepts "enable_auto_start" = false
    /\ synthetics.Canary.accepts "start_after_creation" = true
    /\ synthetics.valid_handler "handler" = false
    /\ is_declared ["Endpoint"] st = true
    /\ is_declared ["CanaryArtifactsBucket"] st = true.
Proof.
  intros Stack__init__ w scope construct_id kw Hp Ha.
  exists (built_before_canary scope construct_id).
  split; [exact (constructor_with_asset _ _ _ _ _ Hp Ha) |].
  repeat split.
Qed.

Lemma C8_canary_call_raises_witness :
  accepting with_asset app "ApigwStack" [] = None
  /\ asset_present with_asset = true
  /\ (exists st,
     ApigwHttpApiLambdaDynamodbPythonCdkStack accepting with_asset app "ApigwStack" []
     = BodyRaised (TypeError "synthetics.Canary" "enable_auto_start") st
     /\ canaries st = []
     /\ is_declared ["ApiCanary"] st = false
     /\ synthetics.Canary.accepts "enable_auto_start" = false
     /\ synthetics.Canary.accepts "start_after_creation" = true
     /\ synthetics.valid_handler "handler" = false
     /\ is_declared ["Endpoint"] st = true
     /\ is_declared ["CanaryArtifactsBucket"] st = true).
Proof.
  split; [reflexivity |].
  split; [reflexivity |].
  apply (C8_canary_call_raises accepting with_asset app "ApigwStack" []); reflexivity.
Defined.




(** C10: whenever the parent constructor accepts the stack and the asset
    directory is there, the Lambda function is declared with the
    physical name "apigw_handler", while the table is declared without
    one; the function's TABLE_NAME variable holds the token of the
    table's generated name, not the text "demo_table". *)
Theorem C10_function_name_fixed_table_name_generated :
  forall (Stack__init__ : os.t -> Construct -> string -> kwargs -> option Error)
         (w : os.t) (scope : Construct) (construct_id : string) (kw : kwargs),
    Stack__init__ w scope construct_id kw = None ->
    asset_present w = true ->
  exists st fn t,
    ApigwHttpApiLambdaDynamodbPythonCdkStack Stack__init__ w scope construct_id kw
    = BodyRaised (TypeError "synthetics.Canary" "enable_auto_start") st
    /\ functions st = [(["ApiHandler"], fn)]
    /\ lambda_.Function.function_name fn = Some "apigw_handler"
    /\ tables st = [([TABLE_NAME], t)]
    /\ dynamodb_.Table.table_name t = None
    /\ getenv "TABLE_NAME" (lambda_.Function.environment fn)
       = Some [Tok [TABLE_NAME] "table_name"]
    /\ getenv "TABLE_NAME" (lambda_.Function.environment fn)
       <> Some [Lit "demo_table"].
Proof.
  intros Stack__init__ w scope construct_id kw Hp Ha.
  exists (built_before_canary scope construct_id).
  do 2 eexists.
  split; [exact (constructor_with_asset _ _ _ _ _ Hp Ha) |].
  do 5 (split; [reflexivity |]).
  simpl. discriminate.
Qed.

Lemma C10_function_name_fixed_table_name_generated_witness :
  accepting with_asset app "ApigwStack" [] = None
  /\ asset_present with_asset = true
  /\ (exists st fn t,
     ApigwHttpApiLambdaDynamodbPythonCdkStack accepting with_asset app "ApigwStack" []
     = BodyRaised (TypeError "synthetics.Canary" "enable_auto_start") st
     /\ functions st = [(["ApiHandler"], fn)]
     /\ lambda_.Function.function_name fn = Some "apigw_handler"
     /\ tables st = [([TABLE_NAME], t)]
     /\ dynamodb_.Table.table_name t = None
     /\ getenv "TABLE_NAME" (lambda_.Function.environment fn)
        = Some [Tok [TABLE_NAME] "table_name"]
     /\ getenv "TABLE_NAME" (lambda_.Function.environment fn)
        <> Some [Lit "demo_table"]).
Proof.
  split; [reflexivity |].
  split; [reflexivity |].
  apply (C10_function_name_fixed_table_name_generated accepting with_asset app "ApigwStack" []); reflexivity.
Defined.

(** ** How the constructor ends *)

(** X1: the constructor never returns a stack.  Either the parent
    constructor raises, or the body stops at the Lambda function because
    the asset directory is missing, or it stops at the canary on the
    keyword the class does not have. *)
Theorem X1_constructor_never_returns :
  forall (Stack__init__ : os.t -> Construct -> string -> kwargs -> option Error)
         (w : os.t) (scope : Construct) (construct_id : string) (kw : kwargs),
    (forall st,
       ApigwHttpApiLambdaDynamodbPythonCdkStack Stack__init__ w scope
         construct_id kw <> Returned st)
    /\ ((exists e,
           ApigwHttpApiLambdaDynamodbPythonCdkStack Stack__init__ w scope
             construct_id kw = ParentRaised e)
        \/ (exists st,
              ApigwHttpApiLambdaDynamodbPythonCdkStack Stack__init__ w scope
                construct_id kw
              = BodyRaised (AssetNotFound (os.resolve w asset_directory)) st)
        \/ (exists st,
              ApigwHttpApiLambdaDynamodbPythonCdkStack Stack__init__ w scope
                construct_id kw
              = BodyRaised (TypeError "synthetics.Canary" "enable_auto_start")
                           st)).
Proof.
  intros Stack__init__ w scope construct_id kw.
  destruct (Stack__init__ w scope construct_id kw) as [e|] eqn:Hp.
  - rewrite (constructor_parent_raises _ _ _ _ _ _ Hp).
    split; [intros st; discriminate |]. left. exists e. reflexivity.
  - destruct (asset_present w) eqn:Ha.
    + rewrite (constructor_with_asset _ _ _ _ _ Hp Ha).
      split; [intros st; discriminate |]. right. right. eexists. reflexivity.
    + rewrite (constructor_without_asset _ _ _ _ _ Hp Ha).
      split; [intros st; discriminate |]. right. left. eexists. reflexivity.
Qed.



(** X3: whenever the parent constructor accepts the stack, the body stops
    before the statements that declare the trail and its bucket: the
    state it leaves has no trail and no construct CloudTrail or
    CloudTrailBucket. *)
Theorem X3_audit_trail_never_declared :
  forall (Stack__init__ : os.t -> Construct -> string -> kwargs -> option Error)
         (w : os.t) (scope : Construct) (construct_id : string) (kw : kwargs),
    Stack__init__ w scope construct_id kw = None ->
  exists e st,
    ApigwHttpApiLambdaDynamodbPythonCdkStack Stack__init__ w scope construct_id kw = BodyRaised e st
    /\ trails st = []
    /\ is_declared ["CloudTrail"] st = false
    /\ is_declared ["CloudTrailBucket"] st = false.
Proof.
  intros Stack__init__ w scope construct_id kw Hp.
  destruct (asset_present w) eqn:Ha.
  - eexists. exists (built_before_canary scope construct_id).
    split; [exact (constructor_with_asset _ _ _ _ _ Hp Ha) |].
    repeat split.
  - eexists. exists (built_before_function scope construct_id).
    split; [exact (constructor_without_asset _ _ _ _ _ Hp Ha) |].
    repeat split.
Qed.

Lemma X3_audit_trail_never_declared_witness :
  accepting with_asset app "ApigwStack" [] = None
  /\ (exists e st,
     ApigwHttpApiLambdaDynamodbPythonCdkStack accepting with_asset app "ApigwStack" [] = BodyRaised e st
     /\ trails st = []
     /\ is_declared ["CloudTrail"] st = false
     /\ is_declared ["CloudTrailBucket"] st = false).
Proof.
  split; [reflexivity |].
  apply (X3_audit_trail_never_declared accepting with_asset app "ApigwStack" []); reflexivity.
Defined.

(** X4: in the state the constructor leaves, every construct that an
    argument of a declared construct names (vpc=, handler=, a log group
    destination, the emitter of metric=) was declared earlier by the
    body, with a class the argument accepts. *)
Theorem X4_declared_before_use :
  forall (Stack__init__ : os.t -> Construct -> string -> kwargs -> option Error)
         (w : os.t) (scope : Construct) (construct_id : string) (kw : kwargs),
    Stack__init__ w scope construct_id kw = None ->
  exists e st,
    ApigwHttpApiLambdaDynamodbPythonCdkStack Stack__init__ w scope construct_id kw = BodyRaised e st
    /\ (forall i h r ref,
          nth_error (nodes st) i = Some (h, r) -> In ref (references r) ->
          resolves_to (firstn i (nodes st)) ref).
Proof.
  intros Stack__init__ w scope construct_id kw Hp.
  destruct (asset_present w) eqn:Ha.
  - eexists. exists (built_before_canary scope construct_id).
    split; [exact (constructor_with_asset _ _ _ _ _ Hp Ha) |].
    intros i h r ref Hi Href.
    first [ exact (declared_before_use_nth _ []
                     (canary_state_declared_before_use scope construct_id)
                     i h r Hi ref Href)
          | exact (declared_before_use_nth _ []
                     (function_state_declared_before_use scope construct_id)
                     i h r Hi ref Href) ].
  - eexists. exists (built_before_function scope construct_id).
    split; [exact (constructor_without_asset _ _ _ _ _ Hp Ha) |].
    intros i h r ref Hi Href.
    first [ exact (declared_before_use_nth _ []
                     (canary_state_declared_before_use scope construct_id)
                     i h r Hi ref Href)
          | exact (declared_before_use_nth _ []
                     (function_state_declared_before_use scope construct_id)
                     i h r Hi ref Href) ].
Qed.

Lemma X4_declared_before_use_witness :
  accepting with_asset app "ApigwStack" [] = None
  /\ (exists e st,
     ApigwHttpApiLambdaDynamodbPythonCdkStack accepting with_asset app "ApigwStack" [] = BodyRaised e st
     /\ (forall i h r ref,
           nth_error (nodes st) i = Some (h, r) -> In ref (references r) ->
           resolves_to (firstn i (nodes st)) ref)).
Proof.
  split; [reflexivity |].
  apply (X4_declared_before_use accepting with_asset app "ApigwStack" []); reflexivity.
Defined.

(** X5: whenever the parent constructor accepts the stack, every VPC the
    body declares has a flow log, declared inside it, that captures all
    traffic into a log group of the stack kept for one year. *)
Theorem X5_vpc_flow_log :
  forall (Stack__init__ : os.t -> Construct -> string -> kwargs -> option Error)
         (w : os.t) (scope : Construct) (construct_id : string) (kw : kwargs),
    Stack__init__ w scope construct_id kw = None ->
  exists e st,
    ApigwHttpApiLambdaDynamodbPythonCdkStack Stack__init__ w scope construct_id kw = BodyRaised e st
    /\ (forall hv v,
          In (hv, v) (vpcs st) ->
          exists fl g lg,
            In (hv ++ ["FlowLog"], fl) (flow_logs st)
            /\ ec2.FlowLog.resource_vpc fl = hv
            /\ ec2.FlowLog.traffic_type fl = ec2.FlowLogTrafficType.ALL
            /\ ec2.FlowLog.destination fl
               = ec2.FlowLogDestination.to_cloud_watch_logs g
            /\ find_node g (nodes st) = Some (logs_LogGroup lg)
            /\ logs.LogGroup.retention lg = logs.RetentionDays.ONE_YEAR).
Proof.
  intros Stack__init__ w scope construct_id kw Hp.
  destruct (asset_present w) eqn:Ha.
  - eexists. exists (built_before_canary scope construct_id).
    split; [exact (constructor_with_asset _ _ _ _ _ Hp Ha) |].
    intros hv v Hin.
    destruct Hin as [Heq | []]. injection Heq as <- <-.
    do 3 eexists.
    split; [left; reflexivity |].
    repeat split.
  - eexists. exists (built_before_function scope construct_id).
    split; [exact (constructor_without_asset _ _ _ _ _ Hp Ha) |].
    intros hv v Hin.
    destruct Hin as [Heq | []]. injection Heq as <- <-.
    do 3 eexists.
    split; [left; reflexivity |].
    repeat split.
Qed.

Lemma X5_vpc_flow_log_witness :
  accepting with_asset app "ApigwStack" [] = None
  /\ (exists e st,
     ApigwHttpApiLambdaDynamodbPythonCdkStack accepting with_asset app "ApigwStack" [] = BodyRaised e st
     /\ (forall hv v,
           In (hv, v) (vpcs st) ->
           exists fl g lg,
             In (hv ++ ["FlowLog"], fl) (flow_logs st)
             /\ ec2.FlowLog.resource_vpc fl = hv
             /\ ec2.FlowLog.traffic_type fl = ec2.FlowLogTrafficType.ALL
             /\ ec2.FlowLog.destination fl
                = ec2.FlowLogDestination.to_cloud_watch_logs g
             /\ find_node g (nodes st) = Some (logs_LogGroup lg)
             /\ logs.LogGroup.retention lg = logs.RetentionDays.ONE_YEAR)).
Proof.
  split; [reflexivity |].
  apply (X5_vpc_flow_log accepting with_asset app "ApigwStack" []); reflexivity.
Defined.

(** X6: whenever the parent constructor accepts the stack and the asset
    directory is there, every log group the body declares, and the log
    retention of the Lambda function, is one year; log groups are
    destroyed with the stack.  Flow logs and API access logs go to
    different log groups. *)
Theorem X6_log_retention :
  forall (Stack__init__ : os.t -> Construct -> string -> kwargs -> option Error)
         (w : os.t) (scope : Construct) (construct_id : string) (kw : kwargs),
    Stack__init__ w scope construct_id kw = None ->
    asset_present w = true ->
  exists st fn fl api,
    ApigwHttpApiLambdaDynamodbPythonCdkStack Stack__init__ w scope construct_id kw
    = BodyRaised (TypeError "synthetics.Canary" "enable_auto_start") st
    /\ (forall h g, In (h, g) (log_groups st) ->
          logs.LogGroup.retention g = logs.RetentionDays.ONE_YEAR
          /\ logs.LogGroup.removal_policy g = RemovalPolicy.DESTROY)
    /\ functions st = [(["ApiHandler"], fn)]
    /\ lambda_.Function.log_retention fn = logs.RetentionDays.ONE_YEAR
    /\ flow_logs st = [(["Ingress"; "FlowLog"], fl)]
    /\ rest_apis st = [(["Endpoint"], api)]
    /\ ec2.FlowLog.destination fl
       <> ec2.FlowLogDestination.to_cloud_watch_logs
            (apigw_.LogGroupLogDestination.log_group
               (apigw_.StageOptions.access_log_destination
                  (apigw_.LambdaRestApi.deploy_options api))).
Proof.
  intros Stack__init__ w scope construct_id kw Hp Ha.
  exists (built_before_canary scope construct_id).
  do 3 eexists.
  split; [exact (constructor_with_asset _ _ _ _ _ Hp Ha) |].
  split.
  { intros h g Hin.
    destruct Hin as [Heq | [Heq | []]]; injection Heq as <- <-;
      split; reflexivity. }
  do 4 (split; [reflexivity |]).
  discriminate.
Qed.

Lemma X6_log_retention_witness :
  accepting with_asset app "ApigwStack" [] = None
  /\ asset_present with_asset = true
  /\ (exists st fn fl api,
     ApigwHttpApiLambdaDynamodbPythonCdkStack accepting with_asset app "ApigwStack" []
     = BodyRaised (TypeError "synthetics.Canary" "enable_auto_start") st
     /\ (forall h g, In (h, g) (log_groups st) ->
           logs.LogGroup.retention g = logs.RetentionDays.ONE_YEAR
           /\ logs.LogGroup.removal_policy g = RemovalPolicy.DESTROY)
     /\ functions st = [(["ApiHandler"], fn)]
     /\ lambda_.Function.log_retention fn = logs.RetentionDays.ONE_YEAR
     /\ flow_logs st = [(["Ingress"; "FlowLog"], fl)]
     /\ rest_apis st = [(["Endpoint"], api)]
     /\ ec2.FlowLog.destination fl
        <> ec2.FlowLogDestination.to_cloud_watch_logs
             (apigw_.LogGroupLogDestination.log_group
                (apigw_.StageOptions.access_log_destination
                   (apigw_.LambdaRestApi.deploy_options api)))).
Proof.
  split; [reflexivity |].
  split; [reflexivity |].
  apply (X6_log_retention accepting with_asset app "ApigwStack" []); reflexivity.
Defined.

(** X7: whenever the parent constructor accepts the stack and the asset
    directory is there, the one bucket the body declares is the bucket
    for the canary's artifacts; it is encrypted with S3-managed keys,
    blocks all public access, and is emptied and removed with the
    stack. *)
Theorem X7_artifacts_bucket_private_and_encrypted :
  forall (Stack__init__ : os.t -> Construct -> string -> kwargs -> option Error)
         (w : os.t) (scope : Construct) (construct_id : string) (kw : kwargs),
    Stack__init__ w scope construct_id kw = None ->
    asset_present w = true ->
  exists st b,
    ApigwHttpApiLambdaDynamodbPythonCdkStack Stack__init__ w scope construct_id kw
    = BodyRaised (TypeError "synthetics.Canary" "enable_auto_start") st
    /\ buckets st = [(["CanaryArtifactsBucket"], b)]
    /\ s3.Bucket.encryption b = s3.BucketEncryption.S3_MANAGED
    /\ s3.Bucket.block_public_access b = s3.BlockPublicAccess.BLOCK_ALL
    /\ s3.Bucket.removal_policy b = RemovalPolicy.DESTROY
    /\ s3.Bucket.auto_delete_objects b = true.
Proof.
  intros Stack__init__ w scope construct_id kw Hp Ha.
  exists (built_before_canary scope construct_id).
  do 1 eexists.
  split; [exact (constructor_with_asset _ _ _ _ _ Hp Ha) |].
  repeat split.
Qed.

Lemma X7_artifacts_bucket_private_and_encrypted_witness :
  accepting with_asset app "ApigwStack" [] = None
  /\ asset_present with_asset = true
  /\ (exists st b,
     ApigwHttpApiLambdaDynamodbPythonCdkStack accepting with_asset app "ApigwStack" []
     = BodyRaised (TypeError "synthetics.Canary" "enable_auto_start") st
     /\ buckets st = [(["CanaryArtifactsBucket"], b)]
     /\ s3.Bucket.encryption b = s3.BucketEncryption.S3_MANAGED
     /\ s3.Bucket.block_public_access b = s3.BlockPublicAccess.BLOCK_ALL
     /\ s3.Bucket.removal_policy b = RemovalPolicy.DESTROY
     /\ s3.Bucket.auto_delete_objects b = true).
Proof.
  split; [reflexivity |].
  split; [reflexivity |].
  apply (X7_artifacts_bucket_private_and_encrypted accepting with_asset app "ApigwStack" []); reflexivity.
Defined.

(** X8: whenever the parent constructor accepts the stack and the asset
    directory is there, the interface endpoint for X-Ray is in the VPC
    of the Lambda function and in the same subnet selection, and the
    function's tracing is active. *)
Theorem X8_xray_endpoint_where_function_runs :
  forall (Stack__init__ : os.t -> Construct -> string -> kwargs -> option Error)
         (w : os.t) (scope : Construct) (construct_id : string) (kw : kwargs),
    Stack__init__ w scope construct_id kw = None ->
    asset_present w = true ->
  exists st ep fn,
    ApigwHttpApiLambdaDynamodbPythonCdkStack Stack__init__ w scope construct_id kw
    = BodyRaised (TypeError "synthetics.Canary" "enable_auto_start") st
    /\ interface_endpoints st = [(["XRayVpce"], ep)]
    /\ functions st = [(["ApiHandler"], fn)]
    /\ ec2.InterfaceVpcEndpoint.service ep
       = ec2.InterfaceVpcEndpointAwsService.XRAY
    /\ ec2.InterfaceVpcEndpoint.vpc ep = lambda_.Function.vpc fn
    /\ ec2.InterfaceVpcEndpoint.subnets ep = lambda_.Function.vpc_subnets fn
    /\ lambda_.Function.tracing fn = lambda_.Tracing.ACTIVE.
Proof.
  intros Stack__init__ w scope construct_id kw Hp Ha.
  exists (built_before_canary scope construct_id).
  do 2 eexists.
  split; [exact (constructor_with_asset _ _ _ _ _ Hp Ha) |].
  repeat split.
Qed.

Lemma X8_xray_endpoint_where_function_runs_witness :
  accepting with_asset app "ApigwStack" [] = None
  /\ asset_present with_asset = true
  /\ (exists st ep fn,
     ApigwHttpApiLambdaDynamodbPythonCdkStack accepting with_asset app "ApigwStack" []
     = BodyRaised (TypeError "synthetics.Canary" "enable_auto_start") st
     /\ interface_endpoints st = [(["XRayVpce"], ep)]
     /\ functions st = [(["ApiHandler"], fn)]
     /\ ec2.InterfaceVpcEndpoint.service ep
        = ec2.InterfaceVpcEndpointAwsService.XRAY
     /\ ec2.InterfaceVpcEndpoint.vpc ep = lambda_.Function.vpc fn
     /\ ec2.InterfaceVpcEndpoint.subnets ep = lambda_.Function.vpc_subnets fn
     /\ lambda_.Function.tracing fn = lambda_.Tracing.ACTIVE).
Proof.
  split; [reflexivity |].
  split; [reflexivity |].
  apply (X8_xray_endpoint_where_function_runs accepting with_asset app "ApigwStack" []); reflexivity.
Defined.

(** X9: whenever the parent constructor accepts the stack and the asset
    directory is there, the REST API invokes the very function that
    holds the grant on the table and is in the VPC of the DynamoDB
    gateway endpoint; the stage traces requests and logs access to a
    log group the body declares. *)
Theorem X9_api_invokes_the_granted_function :
  forall (Stack__init__ : os.t -> Construct -> string -> kwargs -> option Error)
         (w : os.t) (scope : Construct) (construct_id : string) (kw : kwargs),
    Stack__init__ w scope construct_id kw = None ->
    asset_present w = true ->
  exists st api fn gw g lg,
    ApigwHttpApiLambdaDynamodbPythonCdkStack Stack__init__ w scope construct_id kw
    = BodyRaised (TypeError "synthetics.Canary" "enable_auto_start") st
    /\ rest_apis st = [(["Endpoint"], api)]
    /\ find_node (apigw_.LambdaRestApi.handler api) (nodes st)
       = Some (lambda_Function fn)
    /\ grants st = [g]
    /\ dynamodb_.Grant.grantee g = apigw_.LambdaRestApi.handler api
    /\ gateway_endpoints st = [(["DynamoDBVpce"], gw)]
    /\ ec2.GatewayVpcEndpoint.vpc gw = lambda_.Function.vpc fn
    /\ apigw_.StageOptions.tracing_enabled
         (apigw_.LambdaRestApi.deploy_options api) = true
    /\ find_node
         (apigw_.LogGroupLogDestination.log_group
            (apigw_.StageOptions.access_log_destination
               (apigw_.LambdaRestApi.deploy_options api)))
         (nodes st)
       = Some (logs_LogGroup lg).
Proof.
  intros Stack__init__ w scope construct_id kw Hp Ha.
  exists (built_before_canary scope construct_id).
  do 5 eexists.
  split; [exact (constructor_with_asset _ _ _ _ _ Hp Ha) |].
  do 3 (split; [reflexivity |]).
  repeat split.
Qed.

Lemma X9_api_invokes_the_granted_function_witness :
  accepting with_asset app "ApigwStack" [] = None
  /\ asset_present with_asset = true
  /\ (exists st api fn gw g lg,
     ApigwHttpApiLambdaDynamodbPythonCdkStack accepting with_asset app "ApigwStack" []
     = BodyRaised (TypeError "synthetics.Canary" "enable_auto_start") st
     /\ rest_apis st = [(["Endpoint"], api)]
     /\ find_node (apigw_.LambdaRestApi.handler api) (nodes st)
        = Some (lambda_Function fn)
     /\ grants st = [g]
     /\ dynamodb_.Grant.grantee g = apigw_.LambdaRestApi.handler api
     /\ gateway_endpoints st = [(["DynamoDBVpce"], gw)]
     /\ ec2.GatewayVpcEndpoint.vpc gw = lambda_.Function.vpc fn
     /\ apigw_.StageOptions.tracing_enabled
          (apigw_.LambdaRestApi.deploy_options api) = true
     /\ find_node
          (apigw_.LogGroupLogDestination.log_group
             (apigw_.StageOptions.access_log_destination
                (apigw_.LambdaRestApi.deploy_options api)))
          (nodes st)
        = Some (logs_LogGroup lg)).
Proof.
  split; [reflexivity |].
  split; [reflexivity |].
  apply (X9_api_invokes_the_granted_function accepting with_asset app "ApigwStack" []); reflexivity.
Defined.

(** X10: whenever the parent constructor accepts the stack and the asset
    directory is there, the Lambda function is declared with Python 3.9
    code from that directory, entry point index.handler, 1024 MB of
    memory and a timeout of 300 seconds; the one variable of its
    environment is TABLE_NAME. *)
Theorem X10_function_configuration :
  forall (Stack__init__ : os.t -> Construct -> string -> kwargs -> option Error)
         (w : os.t) (scope : Construct) (construct_id : string) (kw : kwargs),
    Stack__init__ w scope construct_id kw = None ->
    asset_present w = true ->
  exists st fn,
    ApigwHttpApiLambdaDynamodbPythonCdkStack Stack__init__ w scope construct_id kw
    = BodyRaised (TypeError "synthetics.Canary" "enable_auto_start") st
    /\ functions st = [(["ApiHandler"], fn)]
    /\ lambda_.Function.runtime fn = lambda_.Runtime.PYTHON_3_9
    /\ lambda_.Function.code fn = lambda_.Code.from_asset asset_directory
    /\ lambda_.Function.handler fn = "index.handler"
    /\ lambda_.Function.memory_size fn = 1024%Z
    /\ Duration.to_seconds (lambda_.Function.timeout fn) = 300%Z
    /\ map fst (lambda_.Function.environment fn) = ["TABLE_NAME"].
Proof.
  intros Stack__init__ w scope construct_id kw Hp Ha.
  exists (built_before_canary scope construct_id).
  do 1 eexists.
  split; [exact (constructor_with_asset _ _ _ _ _ Hp Ha) |].
  repeat split.
Qed.

Lemma X10_function_configuration_witness :
  accepting with_asset app "ApigwStack" [] = None
  /\ asset_present with_asset = true
  /\ (exists st fn,
     ApigwHttpApiLambdaDynamodbPythonCdkStack accepting with_asset app "ApigwStack" []
     = BodyRaised (TypeError "synthetics.Canary" "enable_auto_start") st
     /\ functions st = [(["ApiHandler"], fn)]
     /\ lambda_.Function.runtime fn = lambda_.Runtime.PYTHON_3_9
     /\ lambda_.Function.code fn = lambda_.Code.from_asset asset_directory
     /\ lambda_.Function.handler fn = "index.handler"
     /\ lambda_.Function.memory_size fn = 1024%Z
     /\ Duration.to_seconds (lambda_.Function.timeout fn) = 300%Z
     /\ map fst (lambda_.Function.environment fn) = ["TABLE_NAME"]).
Proof.
  split; [reflexivity |].
  split; [reflexivity |].
  apply (X10_function_configuration accepting with_asset app "ApigwStack" []); reflexivity.
Defined.
